(** * The GraphQL code-intelligence query resolver

    A shallow embedding of
    [enterprise/internal/codeintel/resolvers/graphql/query.go]: the
    [QueryResolver] that validates API arguments, delegates to the
    code-intel resolver of the parent package and wraps what comes back
    into connection resolvers.

    Go values are modelled as follows.
    - [int32] and [int] are [Z]; the only arithmetic in the file is the
      comparison [limit <= 0], and the conversions [int(args.Line)] are
      exact.
    - A pointer that may be nil ([*int32], [*string], a resolver returned
      next to an error) is an [option].
    - A Go result [(value, error)] is a pair of options, because both
      components can be nil at once (see [QueryResolver_Hover]).
    - A slice is a list: a nil slice and an empty one are both [[]].
    - The underlying resolver is an interface: a type class over the
      state of whatever implements it.  Every call into it, and every call
      of [decodeCursor], is recorded in a log, so that "the backend is not
      called" is a statement about the log.
    - The [context.Context] every method passes along carries
      cancellation only and is left out. *)

From Stdlib Require Import ZArith NArith List String Ascii Bool Lia.
From Stdlib Require Import DecimalString DecimalPos DecimalN.
From Stdlib Require Import Floats Uint63.
Import ListNotations.

Local Open Scope string_scope.
Local Open Scope list_scope.
Local Open Scope Z_scope.

(** ** Errors *)

(** The error values that flow through the file: the package-level
    sentinel [ErrIllegalLimit], the errors built in place with
    [fmt.Errorf], and the errors handed back by collaborators (the
    underlying resolver, the cursor decoder). *)
Inductive error : Type :=
| ErrIllegalLimit
| Errorf (msg : string)
| ErrCollaborator (origin msg : string).

(** The [Error()] method. *)
Definition Error (e : error) : string :=
  match e with
  | ErrIllegalLimit => "illegal limit"
  | Errorf msg => msg
  | ErrCollaborator _ msg => msg
  end.

(** ** Coordinates of the index store *)

Module lsifstore.

Record Position : Type := { Line : Z; Character : Z }.

Record Range : Type := { Start : Position; End : Position }.

End lsifstore.

(** ** The parent package: the code-intel resolver interface *)

Module resolvers.

(** Modelled from the spec: the declaration of [AdjustedLocation] is in
    the parent package; the data model gives a location as (repository,
    commit, path, range). *)
Record AdjustedLocation : Type := {
  Repository : string;
  AdjustedCommit : string;
  Path : string;
  AdjustedRange : lsifstore.Range
}.

(** Modelled from the spec: severity is one of error, warning,
    information, hint. *)
Inductive Severity : Type := SevError | SevWarning | SevInformation | SevHint.

(** Modelled from the spec: the declaration of [AdjustedDiagnostic] is
    in the parent package; the data model gives a diagnostic as (path,
    range, severity, message, code). *)
Record AdjustedDiagnostic : Type := {
  DiagnosticPath : string;
  DiagnosticRange : lsifstore.Range;
  DiagnosticSeverity : Severity;
  Message : string;
  Code : string
}.

(** The fields of [RangeView] that query.go reads; [Definitions_] is
    the field [Definitions], renamed apart from the method of the
    interface below. *)
Record RangeView : Type := {
  Range : lsifstore.Range;
  Definitions_ : list AdjustedLocation;
  HoverText : string;
  HoverRange : lsifstore.Range
}.

(** The interface [resolvers.QueryResolver], with the five methods
    query.go calls.  [S] is the state of the implementation; a method
    takes the state and returns its Go results with the next state. *)
Class QueryResolver (S : Type) : Type := {
  Definitions : Z -> Z -> S -> (list AdjustedLocation * option error) * S;
  References : Z -> Z -> Z -> string -> S ->
               (list AdjustedLocation * string * option error) * S;
  Hover : Z -> Z -> S -> (string * lsifstore.Range * bool * option error) * S;
  Diagnostics : Z -> S -> (list AdjustedDiagnostic * Z * option error) * S;
  NavView : S -> (list RangeView * option error) * S
}.

End resolvers.

(** ** The GraphQL backend package: argument and value types *)

Module gql.

(** [LSIFQueryPositionArgs]: [Line] and [Character] are [int32]. *)
Record LSIFQueryPositionArgs : Type := {
  Line : Z;
  Character : Z
}.

(** [LSIFPagedQueryPositionArgs]: [args.Line] and [args.Character] are
    the fields of the position arguments it embeds, [Position_];
    [First] is [*int32] and [After] is [*string]. *)
Record LSIFPagedQueryPositionArgs : Type := {
  Position_ : LSIFQueryPositionArgs;
  First : option Z;
  After : option string
}.

(** [LSIFDiagnosticsArgs]: [DiagFirst] is its field [First], a
    [*int32]; it has no cursor field. *)
Record LSIFDiagnosticsArgs : Type := {
  DiagFirst : option Z
}.

(** [LSIFNavViewArgs] carries nothing query.go reads. *)
Record LSIFNavViewArgs : Type := { }.

End gql.

(** ** The call log and the state monad *)

(** One entry per call that leaves query.go towards a collaborator. *)
Inductive Event : Type :=
| CallDecodeCursor (val : option string)
| CallDefinitions (line character : Z)
| CallReferences (line character limit : Z) (cursor : string)
| CallHover (line character : Z)
| CallDiagnostics (limit : Z)
| CallNavView.

(** The entries that are calls of the underlying resolver. *)
Definition isBackendCall (e : Event) : bool :=
  match e with
  | CallDecodeCursor _ => false
  | _ => true
  end.

Definition backendCalls (log : list Event) : list Event :=
  filter isBackendCall log.

(** A logged call that carries a page limit carries a positive one. *)
Definition positiveLimit (e : Event) : Prop :=
  match e with
  | CallReferences _ _ limit _ => 0 < limit
  | CallDiagnostics limit => 0 < limit
  | _ => True
  end.

Record World (S : Type) : Type := mkWorld {
  backend : S;
  calls : list Event
}.
Arguments mkWorld {S} _ _.
Arguments backend {S} _.
Arguments calls {S} _.

Definition M (S A : Type) : Type := World S -> A * World S.

Definition ret {S A : Type} (a : A) : M S A := fun w => (a, w).

Definition bind {S A B : Type} (m : M S A) (k : A -> M S B) : M S B :=
  fun w => let (a, w') := m w in k a w'.

Declare Scope go_scope.
Delimit Scope go_scope with go.
Notation "x <- m ;; k" := (bind m (fun x => k))
  (at level 61, m at next level, right associativity) : go_scope.
Notation "' p <- m ;; k" := (bind m (fun x => match x with p => k end))
  (at level 61, p pattern, m at next level, right associativity) : go_scope.

(** Run a method of the underlying resolver and log the call. *)
Definition invoke {S A : Type} (ev : Event) (f : S -> A * S) : M S A :=
  fun w => let (a, s') := f (backend w) in
           (a, mkWorld s' (calls w ++ [ev])).

(** Log a call that does not touch the underlying resolver. *)
Definition logCall {S : Type} (ev : Event) : M S unit :=
  fun w => (tt, mkWorld (backend w) (calls w ++ [ev])).

(** ** The package under verification *)

Module graphql.

(** [DefaultReferencesPageSize] is the reference result page size when
    no limit is supplied. *)
Definition DefaultReferencesPageSize : Z := 100.

(** [DefaultDiagnosticsPageSize] is the diagnostic result page size when
    no limit is supplied. *)
Definition DefaultDiagnosticsPageSize : Z := 100.

(** [*CachedLocationResolver]: the pointer, as the address it holds. *)
Definition CachedLocationResolver : Type := nat.

(** The helpers of the package that query.go calls and that are
    declared in its sibling files, with the type of range that
    [convertRange] returns and the range and hover resolvers take. *)
Class Helpers : Type := {
  derefInt32 : option Z -> Z -> Z;
  decodeCursor : option string -> string * option error;
  strPtr : string -> option string;
  APIRange : Type;
  convertRange : lsifstore.Range -> APIRange
}.

(** The values the constructors [NewLocationConnectionResolver],
    [NewHoverResolver], [NewDiagnosticConnectionResolver] and
    [gql.NewRangeResolver] are given: each resolver is the record of
    its constructor's arguments. *)
Record LocationConnectionResolver : Type := NewLocationConnectionResolver {
  locations : list resolvers.AdjustedLocation;
  cursor : option string;
  locationResolver : CachedLocationResolver
}.

Record HoverResolver {H : Helpers} : Type := NewHoverResolver {
  text : string;
  hoverRange : APIRange
}.
Arguments NewHoverResolver {H} _ _.
Arguments text {H} _.
Arguments hoverRange {H} _.

Record DiagnosticConnectionResolver : Type := NewDiagnosticConnectionResolver {
  diagnostics : list resolvers.AdjustedDiagnostic;
  totalCount : Z;
  diagLocationResolver : CachedLocationResolver
}.

Record RangeResolver {H : Helpers} : Type := NewRangeResolver {
  range : APIRange
}.
Arguments NewRangeResolver {H} _.
Arguments range {H} _.

(** [QueryResolver]: the [resolver] field is the interface value whose
    state is the [backend] of the world; the record keeps the other
    field. *)
Record QueryResolver : Type := NewQueryResolver {
  qrLocationResolver : CachedLocationResolver
}.

Record navRangeResolver : Type := mkNavRangeResolver {
  rangeView : resolvers.RangeView;
  nrLocationResolver : CachedLocationResolver
}.

Record navViewConnectionResolver : Type := mkNavViewConnectionResolver {
  rangeViews : list resolvers.RangeView;
  nvLocationResolver : CachedLocationResolver
}.

Section Methods.

Context {S : Type} {R : resolvers.QueryResolver S} {H : Helpers}.

Local Open Scope go_scope.

Definition QueryResolver_NavView (r : QueryResolver) (args : gql.LSIFNavViewArgs)
  : M S (option navViewConnectionResolver * option error) :=
  '(rangeViews, err) <- invoke CallNavView resolvers.NavView ;;
  match err with
  | Some e => ret (None, Some e)
  | None =>
      ret (Some (mkNavViewConnectionResolver rangeViews (qrLocationResolver r)), None)
  end.

(** The loop of [Nodes]: [append] one resolver per range view, from a
    nil slice. *)
Definition navViewConnectionResolver_Nodes (r : navViewConnectionResolver)
  : list navRangeResolver * option error :=
  let resolvers :=
    fold_left
      (fun acc rv => acc ++ [mkNavRangeResolver rv (nvLocationResolver r)])
      (rangeViews r) [] in
  (resolvers, None).

Definition navRangeResolver_Range (r : navRangeResolver)
  : option RangeResolver * option error :=
  (Some (NewRangeResolver (convertRange (resolvers.Range (rangeView r)))), None).

Definition navRangeResolver_Definitions (r : navRangeResolver)
  : option LocationConnectionResolver * option error :=
  (Some (NewLocationConnectionResolver
           (resolvers.Definitions_ (rangeView r)) None (nrLocationResolver r)),
   None).

Definition navRangeResolver_References (r : navRangeResolver)
  : option LocationConnectionResolver * option error :=
  (None, Some (Errorf "unimplemented")).

Definition navRangeResolver_Hover (r : navRangeResolver)
  : option HoverResolver * option error :=
  (Some (NewHoverResolver (resolvers.HoverText (rangeView r))
           (convertRange (resolvers.HoverRange (rangeView r)))),
   None).

Definition QueryResolver_Definitions (r : QueryResolver) (args : gql.LSIFQueryPositionArgs)
  : M S (option LocationConnectionResolver * option error) :=
  let line := gql.Line args in
  let character := gql.Character args in
  '(locations, err) <-
    invoke (CallDefinitions line character) (resolvers.Definitions line character) ;;
  match err with
  | Some e => ret (None, Some e)
  | None =>
      ret (Some (NewLocationConnectionResolver locations None (qrLocationResolver r)),
           None)
  end.

Definition QueryResolver_References (r : QueryResolver)
    (args : gql.LSIFPagedQueryPositionArgs)
  : M S (option LocationConnectionResolver * option error) :=
  let limit := derefInt32 (gql.First args) DefaultReferencesPageSize in
  if limit <=? 0 then ret (None, Some ErrIllegalLimit)
  else
    _ <- logCall (CallDecodeCursor (gql.After args)) ;;
    let '(cursor, err) := decodeCursor (gql.After args) in
    match err with
    | Some e => ret (None, Some e)
    | None =>
        let line := gql.Line (gql.Position_ args) in
        let character := gql.Character (gql.Position_ args) in
        '(locations, cursor, err) <-
          invoke (CallReferences line character limit cursor)
                 (resolvers.References line character limit cursor) ;;
        match err with
        | Some e => ret (None, Some e)
        | None =>
            ret (Some (NewLocationConnectionResolver
                         locations (strPtr cursor) (qrLocationResolver r)),
                 None)
        end
    end.

Definition QueryResolver_Hover (r : QueryResolver) (args : gql.LSIFQueryPositionArgs)
  : M S (option HoverResolver * option error) :=
  let line := gql.Line args in
  let character := gql.Character args in
  '(text, rx, exists_, err) <-
    invoke (CallHover line character) (resolvers.Hover line character) ;;
  if (match err with Some _ => true | None => false end) || negb exists_
  then ret (None, err)
  else ret (Some (NewHoverResolver text (convertRange rx)), None).

Definition QueryResolver_Diagnostics (r : QueryResolver) (args : gql.LSIFDiagnosticsArgs)
  : M S (option DiagnosticConnectionResolver * option error) :=
  let limit := derefInt32 (gql.DiagFirst args) DefaultDiagnosticsPageSize in
  if limit <=? 0 then ret (None, Some ErrIllegalLimit)
  else
    '(diagnostics, totalCount, err) <-
      invoke (CallDiagnostics limit) (resolvers.Diagnostics limit) ;;
    match err with
    | Some e => ret (None, Some e)
    | None =>
        ret (Some (NewDiagnosticConnectionResolver
                     diagnostics totalCount (qrLocationResolver r)),
             None)
    end.

End Methods.

End graphql.

(** ** The cursor codec *)

Module CursorCodec.

(** Modelled from the spec: the pagination state a cursor carries, "an
    offset ... plus the ... bundle identifier, so a cursor issued
    against one bundle is never misapplied to another".  The codec is
    not among the sources; only the call [decodeCursor(args.After)]
    is. *)
Record State : Type := mkState {
  bundle : N;
  offset : N
}.

(** Modelled from the spec: the encoding is "versioned"; this is the
    tag of the one schema version. *)
Definition version : string := "v1".

Definition decimal (n : N) : string :=
  NilZero.string_of_uint (N.to_uint n).

Definition parseDecimal (s : string) : option N :=
  option_map N.of_uint (NilZero.uint_of_string s).

(** Modelled from the spec: "Encode(state) -> string: deterministic,
    versioned encoding; must embed enough identity (e.g., bundle
    identifier)".  The text is [v1:<bundle>:<offset>], in decimal: safe
    in a URL query parameter. *)
Definition Encode (st : State) : string :=
  (version ++ ":" ++ decimal (bundle st) ++ ":" ++ decimal (offset st))%string.

(** A text with no colon in it: what a field of the encoding is. *)
Fixpoint noColon (s : string) : bool :=
  match s with
  | EmptyString => true
  | String c rest => negb (Ascii.eqb c ":") && noColon rest
  end.

(** Cut a text at its first colon. *)
Fixpoint splitColon (s : string) : option (string * string) :=
  match s with
  | EmptyString => None
  | String c rest =>
      if Ascii.eqb c ":" then Some (EmptyString, rest)
      else match splitColon rest with
           | Some (a, b) => Some (String c a, b)
           | None => None
           end
  end.

(** Read the three fields back; any text that is not the encoding of
    the state read from it (a foreign version, a missing field, a
    non-canonical number) is refused. *)
Definition parse (s : string) : option State :=
  match splitColon s with
  | Some (v, rest) =>
      if String.eqb v version then
        match splitColon rest with
        | Some (b, o) =>
            match parseDecimal b, parseDecimal o with
            | Some b', Some o' =>
                let st := mkState b' o' in
                if String.eqb (Encode st) s then Some st else None
            | _, _ => None
            end
        | None => None
        end
      else None
  | None => None
  end.

Definition ErrMalformedCursor : error :=
  ErrCollaborator "cursor" "malformed cursor".

Definition ErrForeignCursor : error :=
  ErrCollaborator "cursor" "cursor of another bundle".

(** Modelled from the spec: "Decode(string) -> (state, error): fails
    with a distinct error kind on malformed or tampered input; an
    empty/absent cursor string decodes to start of sequence, never an
    error", and "decoding against a different context is rejected
    rather than silently misused".  The context is the identifier of
    the bundle the query session is bound to. *)
Definition Decode (context : N) (s : string) : State + error :=
  if String.eqb s "" then inl (mkState context 0%N)
  else match parse s with
       | None => inr ErrMalformedCursor
       | Some st =>
           if N.eqb (bundle st) context then inl st
           else inr ErrForeignCursor
       end.

End CursorCodec.

(** ** The helpers of the package, as the spec describes them *)

Module SpecHelpers.

(** Modelled from the spec: [derefInt32] is declared in a sibling file;
    "default limit (100) applied when unset", "callers may override". *)
Definition derefInt32 (val : option Z) (defaultValue : Z) : Z :=
  match val with
  | Some v => v
  | None => defaultValue
  end.

(** Modelled from the spec: [decodeCursor] is declared in a sibling
    file; an absent or empty cursor is the start of the sequence, a
    malformed one is refused before any backend call.  It is given the
    cursor only, not the bundle: whether the cursor belongs to the
    bundle of the session is for the resolver bound to that bundle to
    check. *)
Definition decodeCursor (val : option string) : string * option error :=
  match val with
  | None => ("", None)
  | Some s =>
      if String.eqb s "" then ("", None)
      else match CursorCodec.parse s with
           | Some _ => (s, None)
           | None => ("", Some CursorCodec.ErrMalformedCursor)
           end
  end.

(** Modelled from the spec: [strPtr] is declared in a sibling file; the
    output of References is "next cursor or absent", and the last page
    comes with "an empty/absent cursor". *)
Definition strPtr (val : string) : option string :=
  if String.eqb val "" then None else Some val.

(** Modelled from the spec: [convertRange] is declared in a sibling
    file; the data model has one kind of range, (start, end) positions
    of (line, character), so the range of the API is taken to be the
    range of the store and the conversion keeps the coordinates. *)
Definition convertRange (r : lsifstore.Range) : lsifstore.Range :=
  {| lsifstore.Start := {| lsifstore.Line := lsifstore.Line (lsifstore.Start r);
                           lsifstore.Character := lsifstore.Character (lsifstore.Start r) |};
     lsifstore.End := {| lsifstore.Line := lsifstore.Line (lsifstore.End r);
                         lsifstore.Character := lsifstore.Character (lsifstore.End r) |} |}.

#[global] Instance helpers : graphql.Helpers := {|
  graphql.derefInt32 := derefInt32;
  graphql.decodeCursor := decodeCursor;
  graphql.strPtr := strPtr;
  graphql.APIRange := lsifstore.Range;
  graphql.convertRange := convertRange
|}.

End SpecHelpers.

(** ** A resolver bound to one bundle, as the spec describes it *)

Module SpecResolver.

(** Modelled from the spec: the bundle accessor and the resolver of the
    parent package are not among the sources.  A bundle is "an
    immutable, queryable index"; it answers each of the four queries
    and the navigation view, and the matching items of a query come in
    one deterministic order. *)
Record Bundle : Type := {
  ID : N;
  definitionsAt : Z -> Z -> list resolvers.AdjustedLocation;
  referencesAt : Z -> Z -> list resolvers.AdjustedLocation;
  hoverAt : Z -> Z -> option (string * lsifstore.Range);
  diagnosticsOf : list resolvers.AdjustedDiagnostic;
  rangeViewsOf : list resolvers.RangeView
}.

Definition Definitions (line character : Z) (b : Bundle)
  : (list resolvers.AdjustedLocation * option error) * Bundle :=
  ((definitionsAt b line character, None), b).

(** Modelled from the spec: "References(path, position, limit,
    offset-or-cursor-seed) -> ([]RawLocation, hasMore)"; the page is
    the [limit] items from the cursor's offset on, and a next cursor is
    issued exactly when items remain after the page. *)
Definition References (line character limit : Z) (rawCursor : string) (b : Bundle)
  : (list resolvers.AdjustedLocation * string * option error) * Bundle :=
  match CursorCodec.Decode (ID b) rawCursor with
  | inr e => (([], "", Some e), b)
  | inl st =>
      let all := referencesAt b line character in
      let off := N.to_nat (CursorCodec.offset st) in
      let page := firstn (Z.to_nat limit) (skipn off all) in
      let next := (off + Z.to_nat limit)%nat in
      let hasMore := (next <? List.length all)%nat in
      let cursor :=
        if hasMore
        then CursorCodec.Encode (CursorCodec.mkState (ID b) (N.of_nat next))
        else "" in
      ((page, cursor, None), b)
  end.

Definition zeroRange : lsifstore.Range :=
  {| lsifstore.Start := {| lsifstore.Line := 0; lsifstore.Character := 0 |};
     lsifstore.End := {| lsifstore.Line := 0; lsifstore.Character := 0 |} |}.

Definition Hover (line character : Z) (b : Bundle)
  : (string * lsifstore.Range * bool * option error) * Bundle :=
  match hoverAt b line character with
  | Some (text, rx) => ((text, rx, true, None), b)
  | None => (("", zeroRange, false, None), b)
  end.

(** Modelled from the spec: "Diagnostics(limit) -> ([]Diagnostic,
    totalCount)". *)
Definition Diagnostics (limit : Z) (b : Bundle)
  : (list resolvers.AdjustedDiagnostic * Z * option error) * Bundle :=
  ((firstn (Z.to_nat limit) (diagnosticsOf b),
    Z.of_nat (List.length (diagnosticsOf b)), None), b).

Definition NavView (b : Bundle)
  : (list resolvers.RangeView * option error) * Bundle :=
  ((rangeViewsOf b, None), b).

#[global] Instance resolver : resolvers.QueryResolver Bundle := {|
  resolvers.Definitions := Definitions;
  resolvers.References := References;
  resolvers.Hover := Hover;
  resolvers.Diagnostics := Diagnostics;
  resolvers.NavView := NavView
|}.

End SpecResolver.

(** ** A client that pages through a result *)

Module Client.

Section Paging.

Context {S : Type} {R : resolvers.QueryResolver S} {H : graphql.Helpers}.

(** Ask for a page of references, then for the next one with the
    cursor that came back, until no cursor comes back.  [None] when
    a call fails or the fuel runs out. *)
Fixpoint pageReferences (fuel : nat) (r : graphql.QueryResolver)
    (position : gql.LSIFQueryPositionArgs) (first : option Z)
    (after : option string) (w : World S)
  : option (list (list resolvers.AdjustedLocation)) * World S :=
  match fuel with
  | O => (None, w)
  | Datatypes.S fuel' =>
      let args := {| gql.Position_ := position;
                     gql.First := first;
                     gql.After := after |} in
      match graphql.QueryResolver_References r args w with
      | ((Some conn, None), w') =>
          match graphql.cursor conn with
          | None => (Some [graphql.locations conn], w')
          | Some next =>
              match pageReferences fuel' r position first (Some next) w' with
              | (Some pages, w'') => (Some (graphql.locations conn :: pages), w'')
              | (None, w'') => (None, w'')
              end
          end
      | (_, w') => (None, w')
      end
  end.

(** The diagnostics connection carries no cursor, and the arguments
    of Diagnostics take none: all a client can do is ask again.
    [n] calls in a row, and the page of each. *)
Fixpoint pageDiagnostics (n : nat) (r : graphql.QueryResolver)
    (args : gql.LSIFDiagnosticsArgs) (w : World S)
  : list (list resolvers.AdjustedDiagnostic) * World S :=
  match n with
  | O => ([], w)
  | Datatypes.S n' =>
      match graphql.QueryResolver_Diagnostics r args w with
      | ((Some conn, None), w') =>
          let (pages, w'') := pageDiagnostics n' r args w' in
          (graphql.diagnostics conn :: pages, w'')
      | (_, w') => ([], w')
      end
  end.

End Paging.

(** The cursor argument that stands for an offset into the matching
    items of a bundle: none for the start, the encoding of the offset
    otherwise. *)
Definition standsFor (bundleID : N) (after : option string) (off : nat) : Prop :=
  (after = None /\ off = O)
  \/ after = Some (CursorCodec.Encode (CursorCodec.mkState bundleID (N.of_nat off))).

End Client.

(** ** Sample data *)

Module Sample.

Definition rangeAt (line character : Z) : lsifstore.Range :=
  {| lsifstore.Start := {| lsifstore.Line := line; lsifstore.Character := character |};
     lsifstore.End := {| lsifstore.Line := line; lsifstore.Character := character + 3 |} |}.

Definition loc (path : string) (line : Z) : resolvers.AdjustedLocation :=
  {| resolvers.Repository := "r";
     resolvers.AdjustedCommit := "c";
     resolvers.Path := path;
     resolvers.AdjustedRange := rangeAt line 3 |}.

Definition diag (path : string) (line : Z) (msg : string)
  : resolvers.AdjustedDiagnostic :=
  {| resolvers.DiagnosticPath := path;
     resolvers.DiagnosticRange := rangeAt line 0;
     resolvers.DiagnosticSeverity := resolvers.SevWarning;
     resolvers.Message := msg;
     resolvers.Code := "W1" |}.

Definition fooRefs : list resolvers.AdjustedLocation :=
  [loc "a.go" 10; loc "b.go" 20; loc "c.go" 5].

Definition fooView : resolvers.RangeView :=
  {| resolvers.Range := rangeAt 10 3;
     resolvers.Definitions_ := [loc "a.go" 10];
     resolvers.HoverText := "func foo()";
     resolvers.HoverRange := rangeAt 10 3 |}.

Definition barView : resolvers.RangeView :=
  {| resolvers.Range := rangeAt 12 0;
     resolvers.Definitions_ := [];
     resolvers.HoverText := "";
     resolvers.HoverRange := rangeAt 12 0 |}.

(** The bundle of the spec's example scenario: three references to
    [foo], at a.go:10, b.go:20 and c.go:5. *)
Definition B : SpecResolver.Bundle :=
  {| SpecResolver.ID := 7%N;
     SpecResolver.definitionsAt := fun line character =>
       if (line =? 10) && (character =? 3) then [loc "a.go" 10] else [];
     SpecResolver.referencesAt := fun line character =>
       if (line =? 10) && (character =? 3) then fooRefs else [];
     SpecResolver.hoverAt := fun line character =>
       if (line =? 10) && (character =? 3)
       then Some ("func foo()", rangeAt 10 3) else None;
     SpecResolver.diagnosticsOf :=
       [diag "a.go" 1 "unused"; diag "b.go" 2 "shadowed"; diag "c.go" 3 "deprecated"];
     SpecResolver.rangeViewsOf := [fooView; barView] |}.

Definition w0 : World SpecResolver.Bundle := mkWorld B [].

Definition r0 : graphql.QueryResolver := graphql.NewQueryResolver 1%nat.

Definition at_ (line character : Z) : gql.LSIFQueryPositionArgs :=
  {| gql.Line := line; gql.Character := character |}.

Definition paged (line character : Z) (first : option Z) (after : option string)
  : gql.LSIFPagedQueryPositionArgs :=
  {| gql.Position_ := at_ line character; gql.First := first; gql.After := after |}.

(** The error of a store that cannot be reached. *)
Definition down : error := ErrCollaborator "store" "connection refused".

(** A resolver over a store that is up or down: nothing is indexed
    while it is up, every method fails while it is down. *)
#[global] Instance flaky : resolvers.QueryResolver bool := {|
  resolvers.Definitions := fun _ _ (up : bool) =>
    ((@nil resolvers.AdjustedLocation, if up then None else Some down), up);
  resolvers.References := fun _ _ _ _ (up : bool) =>
    ((@nil resolvers.AdjustedLocation, "", if up then None else Some down), up);
  resolvers.Hover := fun _ _ (up : bool) =>
    (("", SpecResolver.zeroRange, false, if up then None else Some down), up);
  resolvers.Diagnostics := fun _ (up : bool) =>
    ((@nil resolvers.AdjustedDiagnostic, 0, if up then None else Some down), up);
  resolvers.NavView := fun (up : bool) =>
    ((@nil resolvers.RangeView, if up then None else Some down), up)
|}.

End Sample.

(** * The rate-limit monitor

    A shallow embedding of the [Monitor] of package [ratelimit]: the
    record of the quota an external service last reported, updated from
    response headers and asked for a waiting time.

    - [time.Duration] and [int] are 64-bit integers: [Z] with the
      wrap-around of [+] and [*] written out.
    - [float64] is Rocq's primitive binary64 float; the constant [0.8]
      is written as the binary64 nearest to it.
    - [time.Time], [strconv] and [http.Header] belong to Go's library:
      times and their operations and the two parsers are interfaces, a
      header is the function its [Get] method computes.
    - The mutex is left out: the methods are modelled one call at a
      time. *)

Module ratelimit.

Definition minInt64 : Z := - 2 ^ 63.
Definition maxInt64 : Z := 2 ^ 63 - 1.

(** The value a 64-bit signed integer holds after an operation whose
    exact result is [z]. *)
Definition wrap64 (z : Z) : Z := (z + 2 ^ 63) mod 2 ^ 64 - 2 ^ 63.

Definition Millisecond : Z := 1000000.
Definition Second : Z := 1000 * Millisecond.
Definition Minute : Z := 60 * Second.
Definition Hour : Z := 60 * Minute.

(** The operations of [time.Time] the monitor uses; [zeroTime] is
    [time.Time{}]. *)
Class TimeOps (T : Type) : Type := {
  zeroTime : T;
  IsZero : T -> bool;
  Add : T -> Z -> T;
  Sub : T -> T -> Z;
  After : T -> T -> bool;
  Unix : Z -> Z -> T
}.

(** [strconv.ParseInt(s, 10, 64)] and [strconv.Atoi(s)]: the value and
    the error. *)
Class Strconv : Type := {
  ParseInt : string -> Z * option error;
  Atoi : string -> Z * option error
}.

(** An [http.Header], as what [Get] returns for a key. *)
Definition Header : Type := string -> string.

(** [float64(z)] for a 64-bit integer [z]: the nearest binary64. *)
Definition float64 (z : Z) : float :=
  if z <? 0
  then (if z =? minInt64 then (-0x1p+63)%float
        else PrimFloat.opp (PrimFloat.of_uint63 (Uint63.of_Z (- z))))
  else PrimFloat.of_uint63 (Uint63.of_Z z).

(** [time.Duration(f)] for a float [f]: the fraction is dropped.  Go
    leaves the result to the implementation when [f] is not a number or
    is out of range; the smallest integer stands for it. *)
Definition toDuration (f : float) : Z :=
  match Prim2SF f with
  | S754_zero _ => 0
  | S754_finite sign m e =>
      let magnitude := if 0 <=? e then Z.pos m * 2 ^ e else Z.pos m / 2 ^ (- e) in
      let value := if sign then - magnitude else magnitude in
      if (minInt64 <=? value) && (value <=? maxInt64) then value else minInt64
  | _ => minInt64
  end.

(** What a call comes to: a returned duration, or a run-time panic. *)
Inductive Outcome : Type :=
| Returns (d : Z)
| Panics (msg : string).

Section Monitor.

Context {T : Type} {TO : TimeOps T} {SC : Strconv}.

Record Monitor : Type := mkMonitor {
  HeaderPrefix : string;
  known : bool;
  limit : Z;
  remaining : Z;
  reset : T;
  retry : T;
  clock : option (unit -> T)
}.

Definition setRetry (c : Monitor) (t : T) : Monitor :=
  mkMonitor (HeaderPrefix c) (known c) (limit c) (remaining c) (reset c) t (clock c).

Definition setKnown (c : Monitor) (k : bool) : Monitor :=
  mkMonitor (HeaderPrefix c) k (limit c) (remaining c) (reset c) (retry c) (clock c).

(** [now]: the monitor's clock when it has one, the system's otherwise;
    [wall] is what [time.Now()] returns at the call. *)
Definition now (c : Monitor) (wall : T) : T :=
  match clock c with
  | Some f => f tt
  | None => wall
  end.

(** [Get] reports the client's rate limit status. *)
Definition Get (c : Monitor) (wall : T) : Z * Z * Z * bool :=
  let n := now c wall in
  (remaining c, Sub (reset c) n, Sub (retry c) n, known c).

(** [RecommendedWaitForBackgroundOp]: the outcome and the monitor after
    the call (the call clears a retry deadline that has passed). *)
Definition RecommendedWaitForBackgroundOp (c : Monitor) (cost : Z) (wall : T)
  : Outcome * Monitor :=
  let now_ := now c wall in
  if negb (IsZero (retry c)) && (0 <? Sub (retry c) now_)
  then (Returns (Sub (retry c) now_), c)
  else
    let c := if negb (IsZero (retry c)) then setRetry c zeroTime else c in
    if negb (known c) then (Returns 0, c)
    else
      let '(limitRemaining, resetAt) :=
        if After now_ (reset c)
        then (float64 (limit c), Add now_ (1 * Hour))
        else (float64 (remaining c), reset c) in
      let limitRemaining := (limitRemaining * 0x1.999999999999ap-1)%float in
      let timeRemaining := wrap64 (Sub resetAt now_ + 3 * Minute) in
      let n := (limitRemaining / float64 cost)%float in
      if PrimFloat.ltb n 1%float then (Returns timeRemaining, c)
      else if PrimFloat.ltb 500%float n then (Returns 0, c)
      else if PrimFloat.ltb 250%float n then (Returns (200 * Millisecond), c)
      else
        let divisor := toDuration limitRemaining in
        if divisor =? 0 then (Panics "integer divide by zero", c)
        else (Returns (wrap64 (Z.quot (wrap64 (timeRemaining * cost)) divisor)), c).

(** [Update] updates the monitor's rate limit information based on the
    HTTP response headers. *)
Definition Update (c : Monitor) (h : Header) (wall : T) : Monitor :=
  if negb (String.eqb (h "X-From-Cache") "") then c
  else
    let retrySeconds := fst (ParseInt (h "Retry-After")) in
    let c :=
      if 0 <? retrySeconds
      then setRetry c (Add (now c wall) (wrap64 (retrySeconds * Second)))
      else c in
    let '(limit_, err) := Atoi (h (HeaderPrefix c ++ "RateLimit-Limit")%string) in
    match err with
    | Some _ => setKnown c false
    | None =>
        let '(remaining_, err) :=
          Atoi (h (HeaderPrefix c ++ "RateLimit-Remaining")%string) in
        match err with
        | Some _ => setKnown c false
        | None =>
            let '(resetAtSeconds, err) :=
              ParseInt (h (HeaderPrefix c ++ "RateLimit-Reset")%string) in
            match err with
            | Some _ => setKnown c false
            | None =>
                mkMonitor (HeaderPrefix c) true limit_ remaining_
                          (Unix resetAtSeconds 0) (retry c) (clock c)
            end
        end
    end.

End Monitor.

Arguments Monitor T : clear implicits.

End ratelimit.

(** ** Sample clock, parsers and headers *)

Module RateSample.

(** A clock that counts nanoseconds from the zero time; the Unix epoch
    is 62135596800 seconds later.  Differences saturate as [Sub] does. *)
#[global] Instance clockOps : ratelimit.TimeOps Z := {|
  ratelimit.zeroTime := 0;
  ratelimit.IsZero := fun t => t =? 0;
  ratelimit.Add := fun t d => t + d;
  ratelimit.Sub := fun t u =>
    Z.max ratelimit.minInt64 (Z.min ratelimit.maxInt64 (t - u));
  ratelimit.After := fun t u => u <? t;
  ratelimit.Unix := fun sec nsec => (sec + 62135596800) * ratelimit.Second + nsec
|}.

(** Parsers for unsigned decimal text; anything else is a syntax
    error. *)
Definition parseUnsigned (s : string) : Z * option error :=
  match CursorCodec.parseDecimal s with
  | Some n => (Z.of_N n, None)
  | None => (0, Some (ErrCollaborator "strconv" "invalid syntax"))
  end.

#[global] Instance parsers : ratelimit.Strconv := {|
  ratelimit.ParseInt := parseUnsigned;
  ratelimit.Atoi := parseUnsigned
|}.

(** A header with the given fields. *)
Fixpoint header (fields : list (string * string)) : ratelimit.Header :=
  fun key =>
    match fields with
    | [] => ""
    | (k, v) :: rest => if String.eqb k key then v else header rest key
    end.

(** Noon of some day, in nanoseconds from the zero time. *)
Definition noon : Z := ratelimit.Unix 1600000000 0.

(** A GitHub-style monitor that knows nothing yet. *)
Definition fresh : ratelimit.Monitor Z :=
  ratelimit.mkMonitor "X-" false 0 0 0 0 None.

(** A monitor with an exhausted quota that resets in half an hour. *)
Definition exhausted : ratelimit.Monitor Z :=
  ratelimit.mkMonitor "X-" true 5000 0 (noon + 30 * ratelimit.Minute) 0 None.

(** A monitor told to retry no sooner than a minute after noon. *)
Definition waiting : ratelimit.Monitor Z :=
  ratelimit.mkMonitor "X-" true 5000 1500 (noon + 30 * ratelimit.Minute)
                      (noon + ratelimit.Minute) None.

(** The quota headers of the example in the comment of
    [RecommendedWaitForBackgroundOp]: 1500 of 5000 left, reset in 30
    minutes. *)
Definition quota : ratelimit.Header :=
  header [("X-RateLimit-Limit", "5000"); ("X-RateLimit-Remaining", "1500");
          ("X-RateLimit-Reset", "1600001800")].

(** A response that asks to retry after 30 seconds and has a limit
    header that is not a number. *)
Definition retryLater : ratelimit.Header :=
  header [("Retry-After", "30"); ("X-RateLimit-Limit", "soon");
          ("X-RateLimit-Remaining", "0"); ("X-RateLimit-Reset", "1600001800")].

(** The same quota headers on a response served from a cache. *)
Definition cached : ratelimit.Header :=
  header [("X-From-Cache", "1"); ("Retry-After", "30");
          ("X-RateLimit-Limit", "5000"); ("X-RateLimit-Remaining", "1500");
          ("X-RateLimit-Reset", "1600001800")].

End RateSample.

(** * Properties *)

(** ** The log *)

Lemma backendCalls_app (l1 l2 : list Event) :
  backendCalls (l1 ++ l2) = backendCalls l1 ++ backendCalls l2.
Proof. unfold backendCalls. apply filter_app. Qed.

Lemma backendCalls_decode (l : list Event) (val : option string) :
  backendCalls (l ++ [CallDecodeCursor val]) = backendCalls l.
Proof. rewrite backendCalls_app. simpl. apply app_nil_r. Qed.

(** ** Argument validation *)

Section Validation.

Context {S : Type} {R : resolvers.QueryResolver S} {H : graphql.Helpers}.

Lemma References_illegal_limit (r : graphql.QueryResolver)
    (args : gql.LSIFPagedQueryPositionArgs) (w : World S) :
  graphql.derefInt32 (gql.First args) graphql.DefaultReferencesPageSize <= 0 ->
  graphql.QueryResolver_References r args w = ((None, Some ErrIllegalLimit), w).
Proof.
  intros Hlimit. unfold graphql.QueryResolver_References.
  destruct (Z.leb_spec
              (graphql.derefInt32 (gql.First args) graphql.DefaultReferencesPageSize) 0)
    as [_ | Hpos]; [reflexivity | lia].
Qed.

Lemma Diagnostics_illegal_limit (r : graphql.QueryResolver)
    (args : gql.LSIFDiagnosticsArgs) (w : World S) :
  graphql.derefInt32 (gql.DiagFirst args) graphql.DefaultDiagnosticsPageSize <= 0 ->
  graphql.QueryResolver_Diagnostics r args w = ((None, Some ErrIllegalLimit), w).
Proof.
  intros Hlimit. unfold graphql.QueryResolver_Diagnostics.
  destruct (Z.leb_spec
              (graphql.derefInt32 (gql.DiagFirst args) graphql.DefaultDiagnosticsPageSize) 0)
    as [_ | Hpos]; [reflexivity | lia].
Qed.

(** With a legal limit, References logs the decoding of the cursor and
    goes on with what the decoder returned. *)
Lemma References_legal_limit (r : graphql.QueryResolver)
    (args : gql.LSIFPagedQueryPositionArgs) (w : World S) :
  0 < graphql.derefInt32 (gql.First args) graphql.DefaultReferencesPageSize ->
  graphql.QueryResolver_References r args w =
  let limit := graphql.derefInt32 (gql.First args) graphql.DefaultReferencesPageSize in
  let w1 := mkWorld (backend w) (calls w ++ [CallDecodeCursor (gql.After args)]) in
  match graphql.decodeCursor (gql.After args) with
  | (_, Some e) => ((None, Some e), w1)
  | (cursor, None) =>
      let line := gql.Line (gql.Position_ args) in
      let character := gql.Character (gql.Position_ args) in
      match resolvers.References line character limit cursor (backend w) with
      | ((_, _, Some e), s') =>
          ((None, Some e),
           mkWorld s' (calls w1 ++ [CallReferences line character limit cursor]))
      | ((locations, next, None), s') =>
          ((Some (graphql.NewLocationConnectionResolver
                    locations (graphql.strPtr next) (graphql.qrLocationResolver r)),
            None),
           mkWorld s' (calls w1 ++ [CallReferences line character limit cursor]))
      end
  end.
Proof.
  intros Hlimit. unfold graphql.QueryResolver_References.
  destruct (Z.leb_spec
              (graphql.derefInt32 (gql.First args) graphql.DefaultReferencesPageSize) 0)
    as [Hle | _]; [lia | ].
  cbv beta iota zeta delta [bind logCall invoke ret].
  destruct (graphql.decodeCursor (gql.After args)) as [cursor [e | ]];
    [reflexivity | ].
  cbn [backend calls].
  destruct (resolvers.References _ _ _ cursor (backend w))
    as [[[locations next] [e | ]] s']; reflexivity.
Qed.

(** With a legal limit, Diagnostics makes exactly one call. *)
Lemma Diagnostics_legal_limit (r : graphql.QueryResolver)
    (args : gql.LSIFDiagnosticsArgs) (w : World S) :
  0 < graphql.derefInt32 (gql.DiagFirst args) graphql.DefaultDiagnosticsPageSize ->
  graphql.QueryResolver_Diagnostics r args w =
  let limit := graphql.derefInt32 (gql.DiagFirst args) graphql.DefaultDiagnosticsPageSize in
  match resolvers.Diagnostics limit (backend w) with
  | ((_, _, Some e), s') =>
      ((None, Some e), mkWorld s' (calls w ++ [CallDiagnostics limit]))
  | ((diagnostics, totalCount, None), s') =>
      ((Some (graphql.NewDiagnosticConnectionResolver
                diagnostics totalCount (graphql.qrLocationResolver r)),
        None),
       mkWorld s' (calls w ++ [CallDiagnostics limit]))
  end.
Proof.
  intros Hlimit. unfold graphql.QueryResolver_Diagnostics.
  destruct (Z.leb_spec
              (graphql.derefInt32 (gql.DiagFirst args) graphql.DefaultDiagnosticsPageSize) 0)
    as [Hle | _]; [lia | ].
  unfold bind, invoke, ret.
  destruct (resolvers.Diagnostics _ (backend w))
    as [[[diagnostics totalCount] [e | ]] s']; reflexivity.
Qed.

(** C1. Whenever the limit in force (the caller's, or the default when
    the caller gave none) is zero or negative, References and
    Diagnostics both return the "illegal limit" error and leave the
    world as it was: the state of the underlying resolver is untouched
    and nothing is added to the call log. *)
Theorem illegal_limit_rejected_before_backend (r : graphql.QueryResolver)
    (pargs : gql.LSIFPagedQueryPositionArgs) (dargs : gql.LSIFDiagnosticsArgs)
    (w : World S) :
  (graphql.derefInt32 (gql.First pargs) graphql.DefaultReferencesPageSize <= 0 ->
   graphql.QueryResolver_References r pargs w = ((None, Some ErrIllegalLimit), w))
  /\
  (graphql.derefInt32 (gql.DiagFirst dargs) graphql.DefaultDiagnosticsPageSize <= 0 ->
   graphql.QueryResolver_Diagnostics r dargs w = ((None, Some ErrIllegalLimit), w))
  /\
  Error ErrIllegalLimit = "illegal limit".
Proof.
  split; [ | split].
  - apply References_illegal_limit.
  - apply Diagnostics_illegal_limit.
  - reflexivity.
Qed.

(** C10. In References the limit is checked first: when the limit in
    force is zero or negative the result is the "illegal limit" error
    whatever the cursor argument is, and the world is left as it was, so
    the log has no entry for a decoding of the cursor.  This holds for
    every decoder, also one that would refuse the cursor. *)
Theorem illegal_limit_precedes_cursor_decoding (r : graphql.QueryResolver)
    (position : gql.LSIFQueryPositionArgs) (first : option Z) (w : World S) :
  graphql.derefInt32 first graphql.DefaultReferencesPageSize <= 0 ->
  forall after : option string,
    let args := {| gql.Position_ := position; gql.First := first; gql.After := after |} in
    fst (graphql.QueryResolver_References r args w) = (None, Some ErrIllegalLimit)
    /\ snd (graphql.QueryResolver_References r args w) = w
    /\ calls (snd (graphql.QueryResolver_References r args w)) = calls w.
Proof.
  intros Hlimit after args.
  rewrite (References_illegal_limit r args w Hlimit). cbn [fst snd].
  repeat split.
Qed.

(** The backend is never reached with a cursor the decoder refuses,
    whatever the limit is. *)
Lemma References_refused_cursor_no_backend (r : graphql.QueryResolver)
    (args : gql.LSIFPagedQueryPositionArgs) (w : World S)
    (cursor : string) (e : error) :
  graphql.decodeCursor (gql.After args) = (cursor, Some e) ->
  backend (snd (graphql.QueryResolver_References r args w)) = backend w
  /\ backendCalls (calls (snd (graphql.QueryResolver_References r args w)))
     = backendCalls (calls w).
Proof.
  intros Hdecode.
  destruct (Z.leb_spec
              (graphql.derefInt32 (gql.First args) graphql.DefaultReferencesPageSize) 0)
    as [Hle | Hpos].
  - rewrite (References_illegal_limit r args w Hle). split; reflexivity.
  - rewrite (References_legal_limit r args w Hpos). cbv zeta.
    rewrite Hdecode. cbn [fst snd backend calls].
    split; [reflexivity | apply backendCalls_decode].
Qed.

(** C5, as amended. When the limit in force is positive and the
    decoder refuses the cursor argument, References returns the
    decoder's error, and the only new entry of the log is the decoding.
    Whatever the limit is, a call whose cursor the decoder refuses does
    not reach the underlying resolver. *)
Theorem refused_cursor_rejected_before_backend (r : graphql.QueryResolver)
    (args : gql.LSIFPagedQueryPositionArgs) (w : World S)
    (cursor : string) (e : error) :
  graphql.decodeCursor (gql.After args) = (cursor, Some e) ->
  (0 < graphql.derefInt32 (gql.First args) graphql.DefaultReferencesPageSize ->
   graphql.QueryResolver_References r args w =
   ((None, Some e),
    mkWorld (backend w) (calls w ++ [CallDecodeCursor (gql.After args)])))
  /\ backend (snd (graphql.QueryResolver_References r args w)) = backend w
  /\ backendCalls (calls (snd (graphql.QueryResolver_References r args w)))
     = backendCalls (calls w).
Proof.
  intros Hdecode. split.
  - intros Hpos. rewrite (References_legal_limit r args w Hpos). cbv zeta.
    rewrite Hdecode. reflexivity.
  - apply (References_refused_cursor_no_backend r args w cursor e Hdecode).
Qed.

End Validation.

(** ** Delegation *)

Section Delegation.

Context {S : Type} {R : resolvers.QueryResolver S} {H : graphql.Helpers}.

(** Definitions hands over every location the underlying resolver
    returned, in its order, with no cursor. *)
Lemma Definitions_whole (r : graphql.QueryResolver)
    (args : gql.LSIFQueryPositionArgs) (w : World S)
    (locations : list resolvers.AdjustedLocation) (s' : S) :
  resolvers.Definitions (gql.Line args) (gql.Character args) (backend w)
  = ((locations, None), s') ->
  graphql.QueryResolver_Definitions r args w =
  ((Some (graphql.NewLocationConnectionResolver
            locations None (graphql.qrLocationResolver r)), None),
   mkWorld s' (calls w ++ [CallDefinitions (gql.Line args) (gql.Character args)])).
Proof.
  intros Hcall. unfold graphql.QueryResolver_Definitions.
  cbv beta iota zeta delta [bind invoke ret]. rewrite Hcall. reflexivity.
Qed.

(** C6. When the underlying resolver finds no definition at the
    position and reports no error, Definitions returns a connection
    and a nil error, and the connection holds the empty list of
    locations. *)
Theorem no_definitions_is_empty_success (r : graphql.QueryResolver)
    (args : gql.LSIFQueryPositionArgs) (w : World S) (s' : S) :
  resolvers.Definitions (gql.Line args) (gql.Character args) (backend w)
  = (([], None), s') ->
  exists conn : graphql.LocationConnectionResolver,
    fst (graphql.QueryResolver_Definitions r args w) = (Some conn, None)
    /\ graphql.locations conn = []
    /\ graphql.cursor conn = None.
Proof.
  intros Hcall. rewrite (Definitions_whole r args w [] s' Hcall).
  eexists. cbn [fst]. repeat split.
Qed.

(** What Hover returns, by what the underlying resolver returned. *)
Lemma Hover_cases (r : graphql.QueryResolver)
    (args : gql.LSIFQueryPositionArgs) (w : World S)
    (text : string) (rx : lsifstore.Range) (found : bool) (err : option error)
    (s' : S) :
  resolvers.Hover (gql.Line args) (gql.Character args) (backend w)
  = ((text, rx, found, err), s') ->
  fst (graphql.QueryResolver_Hover r args w) =
  match err, found with
  | Some e, _ => (None, Some e)
  | None, false => (None, None)
  | None, true =>
      (Some (graphql.NewHoverResolver text (graphql.convertRange rx)), None)
  end.
Proof.
  intros Hcall. unfold graphql.QueryResolver_Hover.
  cbv beta iota zeta delta [bind invoke ret]. rewrite Hcall.
  destruct err as [e | ], found; reflexivity.
Qed.

(** C3. When the underlying resolver reports no hover and no error,
    Hover returns a nil resolver and a nil error: success with no
    content.  When the underlying resolver reports an error, the same
    call returns that error with a nil resolver; the error is not nil,
    so this result is not the result of the first case. *)
Theorem hover_not_found_is_not_an_error (r : graphql.QueryResolver)
    (args : gql.LSIFQueryPositionArgs) (w : World S) :
  (forall (text : string) (rx : lsifstore.Range) (s' : S),
     resolvers.Hover (gql.Line args) (gql.Character args) (backend w)
     = ((text, rx, false, None), s') ->
     fst (graphql.QueryResolver_Hover r args w) = (None, None))
  /\
  (forall (text : string) (rx : lsifstore.Range) (found : bool) (e : error) (s' : S),
     resolvers.Hover (gql.Line args) (gql.Character args) (backend w)
     = ((text, rx, found, Some e), s') ->
     fst (graphql.QueryResolver_Hover r args w) = (None, Some e)
     /\ fst (graphql.QueryResolver_Hover r args w) <> (None, None)).
Proof.
  split.
  - intros text rx s' Hnone.
    rewrite (Hover_cases r args w _ _ _ _ _ Hnone). reflexivity.
  - intros text rx found e s' Hfail.
    rewrite (Hover_cases r args w _ _ _ _ _ Hfail). split; [reflexivity | discriminate].
Qed.

End Delegation.

(** ** The navigation view *)

(** A loop that appends one image per element builds the [map]. *)
Lemma fold_left_append_map {A B : Type} (f : A -> B) (l : list A) (acc : list B) :
  fold_left (fun acc x => acc ++ [f x]) l acc = acc ++ map f l.
Proof.
  revert acc. induction l as [ | x l IH]; intros acc; cbn [fold_left map].
  - symmetry. apply app_nil_r.
  - rewrite IH, <- app_assoc. reflexivity.
Qed.

Lemma Nodes_is_map (r : graphql.navViewConnectionResolver) :
  graphql.navViewConnectionResolver_Nodes r =
  (map (fun rv => graphql.mkNavRangeResolver rv (graphql.nvLocationResolver r))
       (graphql.rangeViews r),
   None).
Proof.
  unfold graphql.navViewConnectionResolver_Nodes.
  rewrite (fold_left_append_map
             (fun rv => graphql.mkNavRangeResolver rv (graphql.nvLocationResolver r))).
  reflexivity.
Qed.

(** C9. Nodes returns a nil error and one node per range view of the
    connection: as many nodes as range views, the node at each index
    built from the range view at that index, so that reading the range
    views back off the nodes gives the connection's list. *)
Theorem Nodes_one_per_range_view_in_order (r : graphql.navViewConnectionResolver) :
  exists nodes : list graphql.navRangeResolver,
    graphql.navViewConnectionResolver_Nodes r = (nodes, None)
    /\ List.length nodes = List.length (graphql.rangeViews r)
    /\ map graphql.rangeView nodes = graphql.rangeViews r
    /\ forall i : nat,
         nth_error nodes i =
         option_map
           (fun rv => graphql.mkNavRangeResolver rv (graphql.nvLocationResolver r))
           (nth_error (graphql.rangeViews r) i).
Proof.
  eexists. split; [apply Nodes_is_map | ]. split; [ | split].
  - apply length_map.
  - rewrite map_map. cbn [graphql.rangeView]. apply map_id.
  - intros i. apply nth_error_map.
Qed.

(** C4. The References of a range of the navigation view returns no
    connection and the error "unimplemented", for every receiver: the
    function is total, has a single result, and that result is not a
    success. *)
Theorem navRange_References_not_implemented (r : graphql.navRangeResolver) :
  graphql.navRangeResolver_References r = (None, Some (Errorf "unimplemented"))
  /\ (forall conn : graphql.LocationConnectionResolver,
        fst (graphql.navRangeResolver_References r) <> Some conn)
  /\ snd (graphql.navRangeResolver_References r) <> None
  /\ option_map Error (snd (graphql.navRangeResolver_References r))
     = Some "unimplemented".
Proof.
  unfold graphql.navRangeResolver_References. cbn [fst snd option_map Error].
  repeat split; discriminate.
Qed.

(** ** The cursor codec *)

Section Codec.

Import CursorCodec.

Lemma splitColon_fields (a b : string) :
  noColon a = true ->
  splitColon (a ++ String ":" b) = Some (a, b).
Proof.
  induction a as [ | c a IH]; cbn [noColon splitColon String.append]; intros Ha.
  - reflexivity.
  - apply andb_true_iff in Ha. destruct Ha as [Hc Ha].
    apply negb_true_iff in Hc. rewrite Hc, (IH Ha). reflexivity.
Qed.

Lemma noColon_digits (d : Decimal.uint) :
  noColon (NilEmpty.string_of_uint d) = true.
Proof. induction d; cbn [NilEmpty.string_of_uint noColon]; auto. Qed.

Lemma noColon_decimal (n : N) : noColon (decimal n) = true.
Proof.
  unfold decimal, NilZero.string_of_uint.
  destruct (N.to_uint n) eqn:E; try reflexivity; rewrite <- E; apply noColon_digits.
Qed.

Lemma parseDecimal_decimal (n : N) : parseDecimal (decimal n) = Some n.
Proof.
  unfold parseDecimal, decimal. destruct n as [ | p].
  - reflexivity.
  - rewrite NilZero.usu by apply DecimalPos.Unsigned.to_uint_nonnil.
    cbn [option_map]. f_equal. apply DecimalN.Unsigned.of_to.
Qed.

Lemma Encode_unfold (st : State) :
  Encode st =
  String "v" (String "1" (String ":" (decimal (bundle st) ++ String ":" (decimal (offset st))))).
Proof. reflexivity. Qed.

Lemma Encode_nonempty (st : State) : String.eqb (Encode st) "" = false.
Proof. rewrite Encode_unfold. reflexivity. Qed.

Lemma parse_Encode (st : State) : parse (Encode st) = Some st.
Proof.
  unfold parse. rewrite Encode_unfold at 1.
  cbn [splitColon Ascii.eqb Bool.eqb]. cbn [String.eqb version Ascii.eqb Bool.eqb].
  rewrite (splitColon_fields _ _ (noColon_decimal (bundle st))).
  rewrite !parseDecimal_decimal.
  destruct st as [b o]. cbn [bundle offset].
  rewrite String.eqb_refl. reflexivity.
Qed.

(** Whatever [parse] accepts is the encoding of what it returns. *)
Lemma parse_canonical (s : string) (st : State) :
  parse s = Some st -> Encode st = s.
Proof.
  unfold parse.
  destruct (splitColon s) as [[v rest] | ]; [ | discriminate].
  destruct (String.eqb v version); [ | discriminate].
  destruct (splitColon rest) as [[b o] | ]; [ | discriminate].
  destruct (parseDecimal b) as [b' | ]; [ | discriminate].
  destruct (parseDecimal o) as [o' | ]; [ | discriminate].
  destruct (String.eqb_spec (Encode (mkState b' o')) s) as [E | _]; [ | discriminate].
  intros [= <-]. exact E.
Qed.

Lemma Decode_Encode_same (st : State) : Decode (bundle st) (Encode st) = inl st.
Proof.
  unfold Decode. rewrite Encode_nonempty, parse_Encode, N.eqb_refl. reflexivity.
Qed.

Lemma Decode_Encode_other (context : N) (st : State) :
  bundle st <> context -> Decode context (Encode st) = inr ErrForeignCursor.
Proof.
  intros Hne. unfold Decode. rewrite Encode_nonempty, parse_Encode.
  apply N.eqb_neq in Hne. rewrite Hne. reflexivity.
Qed.

(** C7. For the codec as the spec describes it: a pagination state of
    the bundle the decoder is bound to comes back unchanged from the
    decoding of its encoding, and the encoding of a state of any other
    bundle is refused with an error. *)
Theorem cursor_round_trip_and_foreign_rejected (context : N) (st : State) :
  (bundle st = context -> Decode context (Encode st) = inl st)
  /\ (bundle st <> context ->
      exists e : error, Decode context (Encode st) = inr e).
Proof.
  split.
  - intros <-. apply Decode_Encode_same.
  - intros Hne. exists ErrForeignCursor. apply Decode_Encode_other, Hne.
Qed.

End Codec.

(** ** The default page size *)

Section DefaultPageSize.

Context {S : Type} {R : resolvers.QueryResolver S}.

Lemma derefInt32_unset (defaultValue : Z) :
  graphql.derefInt32 (Helpers := SpecHelpers.helpers) None defaultValue = defaultValue.
Proof. reflexivity. Qed.

(** C2. With the helpers as the spec describes them and no limit
    supplied, the one call Diagnostics makes to the underlying
    resolver has limit 100, and so has the one call References makes
    once the cursor is decoded: the log gains that call and the
    underlying resolver moves as that call moves it. *)
Theorem unset_limit_defaults_to_100 (r : graphql.QueryResolver)
    (position : gql.LSIFQueryPositionArgs) (after : option string)
    (cursor : string) (w : World S) :
  SpecHelpers.decodeCursor after = (cursor, None) ->
  let pargs := {| gql.Position_ := position; gql.First := None; gql.After := after |} in
  let dargs := {| gql.DiagFirst := None |} in
  let line := gql.Line position in
  let character := gql.Character position in
  backendCalls (calls (snd (graphql.QueryResolver_References r pargs w)))
  = backendCalls (calls w) ++ [CallReferences line character 100 cursor]
  /\ backend (snd (graphql.QueryResolver_References r pargs w))
     = snd (resolvers.References line character 100 cursor (backend w))
  /\ calls (snd (graphql.QueryResolver_Diagnostics r dargs w))
     = calls w ++ [CallDiagnostics 100]
  /\ backend (snd (graphql.QueryResolver_Diagnostics r dargs w))
     = snd (resolvers.Diagnostics 100 (backend w)).
Proof.
  intros Hdecode pargs dargs line character.
  assert (Hpos : 0 < 100) by lia.
  split; [ | split; [ | split]].
  - rewrite (References_legal_limit (H := SpecHelpers.helpers) r pargs w Hpos).
    cbv zeta. cbn [gql.After gql.First gql.Position_ pargs].
    change (graphql.decodeCursor after) with (SpecHelpers.decodeCursor after).
    rewrite Hdecode. rewrite derefInt32_unset.
    fold line character. unfold graphql.DefaultReferencesPageSize.
    destruct (resolvers.References line character 100 cursor (backend w))
      as [[[locations next] [e | ]] s']; cbn [snd calls];
      rewrite backendCalls_app, backendCalls_decode; reflexivity.
  - rewrite (References_legal_limit (H := SpecHelpers.helpers) r pargs w Hpos).
    cbv zeta. cbn [gql.After gql.First gql.Position_ pargs].
    change (graphql.decodeCursor after) with (SpecHelpers.decodeCursor after).
    rewrite Hdecode. rewrite derefInt32_unset.
    fold line character. unfold graphql.DefaultReferencesPageSize.
    destruct (resolvers.References line character 100 cursor (backend w))
      as [[[locations next] [e | ]] s']; reflexivity.
  - rewrite (Diagnostics_legal_limit (H := SpecHelpers.helpers) r dargs w Hpos).
    cbv zeta. cbn [gql.DiagFirst dargs]. rewrite derefInt32_unset.
    unfold graphql.DefaultDiagnosticsPageSize.
    destruct (resolvers.Diagnostics 100 (backend w))
      as [[[diagnostics totalCount] [e | ]] s']; reflexivity.
  - rewrite (Diagnostics_legal_limit (H := SpecHelpers.helpers) r dargs w Hpos).
    cbv zeta. cbn [gql.DiagFirst dargs]. rewrite derefInt32_unset.
    unfold graphql.DefaultDiagnosticsPageSize.
    destruct (resolvers.Diagnostics 100 (backend w))
      as [[[diagnostics totalCount] [e | ]] s']; reflexivity.
Qed.

End DefaultPageSize.

(** ** Paging *)

Section Paging.

Import CursorCodec.

Variable b : SpecResolver.Bundle.
Variable r : graphql.QueryResolver.
Variable position : gql.LSIFQueryPositionArgs.
Variable limit : Z.
Hypothesis limit_positive : 0 < limit.

Local Abbreviation all :=
  (SpecResolver.referencesAt b (gql.Line position) (gql.Character position)).

Local Abbreviation standsFor := (Client.standsFor (SpecResolver.ID b)).

Lemma decodeCursor_standsFor (after : option string) (off : nat) :
  standsFor after off ->
  exists raw : string,
    SpecHelpers.decodeCursor after = (raw, None)
    /\ Decode (SpecResolver.ID b) raw = inl (mkState (SpecResolver.ID b) (N.of_nat off)).
Proof.
  intros [[-> ->] | ->].
  - exists "". split; reflexivity.
  - eexists. split.
    + unfold SpecHelpers.decodeCursor.
      rewrite Encode_nonempty, parse_Encode. reflexivity.
    + apply (Decode_Encode_same (mkState (SpecResolver.ID b) (N.of_nat off))).
Qed.

(** One page: the [limit] items from the offset on, and a cursor for
    the next offset exactly when items remain. *)
Lemma References_page (after : option string) (off : nat) (log : list Event) :
  standsFor after off ->
  exists log' : list Event,
    graphql.QueryResolver_References r
      {| gql.Position_ := position; gql.First := Some limit; gql.After := after |}
      (mkWorld b log)
    = ((Some (graphql.NewLocationConnectionResolver
                (firstn (Z.to_nat limit) (skipn off all))
                (if (off + Z.to_nat limit <? List.length all)%nat
                 then Some (Encode (mkState (SpecResolver.ID b)
                                            (N.of_nat (off + Z.to_nat limit))))
                 else None)
                (graphql.qrLocationResolver r)),
        None),
       mkWorld b log').
Proof.
  intros Hafter.
  destruct (decodeCursor_standsFor after off Hafter) as [raw [Hraw Hdecode]].
  rewrite (References_legal_limit (H := SpecHelpers.helpers) r
             {| gql.Position_ := position; gql.First := Some limit; gql.After := after |}
             (mkWorld b log) limit_positive).
  cbv zeta. cbn [gql.After gql.First gql.Position_ backend calls].
  change (graphql.decodeCursor after) with (SpecHelpers.decodeCursor after).
  rewrite Hraw.
  change (graphql.derefInt32 (Some limit) graphql.DefaultReferencesPageSize) with limit.
  change (resolvers.References (gql.Line position) (gql.Character position)
            limit raw b)
    with (SpecResolver.References (gql.Line position) (gql.Character position)
            limit raw b).
  unfold SpecResolver.References. rewrite Hdecode.
  cbv zeta. cbn [offset]. rewrite Nat2N.id.
  destruct (off + Z.to_nat limit <? List.length all)%nat.
  - eexists.
    change (graphql.strPtr ?s) with (SpecHelpers.strPtr s).
    unfold SpecHelpers.strPtr. rewrite Encode_nonempty. reflexivity.
  - eexists. reflexivity.
Qed.

Lemma page_then_rest (off : nat) :
  firstn (Z.to_nat limit) (skipn off all) ++ skipn (off + Z.to_nat limit) all
  = skipn off all.
Proof.
  rewrite (Nat.add_comm off), <- skipn_skipn. apply firstn_skipn.
Qed.

Lemma last_page (off : nat) :
  (List.length all <= off + Z.to_nat limit)%nat ->
  firstn (Z.to_nat limit) (skipn off all) = skipn off all.
Proof.
  intros Hlast. apply firstn_all2. rewrite length_skipn. lia.
Qed.

Lemma page_bounded (off : nat) :
  Z.of_nat (List.length (firstn (Z.to_nat limit) (skipn off all))) <= limit.
Proof.
  pose proof (firstn_le_length (Z.to_nat limit) (skipn off all)). lia.
Qed.

(** Following the cursors from an offset returns the items from that
    offset on, in pages of at most [limit] items; one unit of fuel per
    remaining item, and one more, is enough. *)
Lemma pageReferences_from (fuel : nat) :
  forall (off : nat) (after : option string) (log : list Event),
    standsFor after off ->
    (List.length all - off < fuel)%nat ->
    exists (pages : list (list resolvers.AdjustedLocation)) (log' : list Event),
      Client.pageReferences fuel r position (Some limit) after (mkWorld b log)
      = (Some pages, mkWorld b log')
      /\ Forall (fun page => Z.of_nat (List.length page) <= limit) pages
      /\ List.concat pages = skipn off all.
Proof.
  induction fuel as [ | fuel IH]; intros off after log Hafter Hfuel; [lia | ].
  cbn [Client.pageReferences].
  destruct (References_page after off log Hafter) as [log1 Hpage].
  rewrite Hpage. cbn [graphql.cursor graphql.locations].
  destruct (off + Z.to_nat limit <? List.length all)%nat eqn:Hmore.
  - apply Nat.ltb_lt in Hmore.
    destruct (IH (off + Z.to_nat limit)%nat
                 (Some (Encode (mkState (SpecResolver.ID b)
                                        (N.of_nat (off + Z.to_nat limit)))))
                 log1)
      as [pages [log2 [Hrest [Hbound Hconcat]]]].
    + right. reflexivity.
    + lia.
    + rewrite Hrest. exists (firstn (Z.to_nat limit) (skipn off all) :: pages), log2.
      split; [reflexivity | split].
      * constructor; [apply page_bounded | exact Hbound].
      * cbn [List.concat]. rewrite Hconcat. apply page_then_rest.
  - apply Nat.ltb_ge in Hmore.
    exists [firstn (Z.to_nat limit) (skipn off all)], log1.
    split; [reflexivity | split].
    + constructor; [apply page_bounded | constructor].
    + cbn [List.concat]. rewrite app_nil_r. apply last_page, Hmore.
Qed.

(** The one page of Diagnostics. *)
Lemma Diagnostics_page (log : list Event) :
  graphql.QueryResolver_Diagnostics r {| gql.DiagFirst := Some limit |} (mkWorld b log)
  = ((Some (graphql.NewDiagnosticConnectionResolver
              (firstn (Z.to_nat limit) (SpecResolver.diagnosticsOf b))
              (Z.of_nat (List.length (SpecResolver.diagnosticsOf b)))
              (graphql.qrLocationResolver r)),
      None),
     mkWorld b (log ++ [CallDiagnostics limit])).
Proof.
  rewrite (Diagnostics_legal_limit (H := SpecHelpers.helpers) r
             {| gql.DiagFirst := Some limit |} (mkWorld b log) limit_positive).
  reflexivity.
Qed.

End Paging.

(** C8, as amended. For the resolver and the codec as the spec describes
    them and every limit greater than zero: following the cursors of
    References from the start ends, every page has at most [limit]
    items, and the pages put end to end are the matching items, each
    once and in their order; Diagnostics returns one page, the first
    [limit] diagnostics, of at most [limit] items, with the total
    count. *)
Theorem pages_bounded_and_references_complete (b : SpecResolver.Bundle)
    (r : graphql.QueryResolver) (position : gql.LSIFQueryPositionArgs)
    (limit : Z) (log : list Event) (fuel : nat) :
  0 < limit ->
  (List.length (SpecResolver.referencesAt b (gql.Line position)
                  (gql.Character position)) < fuel)%nat ->
  (exists pages : list (list resolvers.AdjustedLocation),
     fst (Client.pageReferences fuel r position (Some limit) None (mkWorld b log))
     = Some pages
     /\ Forall (fun page => Z.of_nat (List.length page) <= limit) pages
     /\ List.concat pages
        = SpecResolver.referencesAt b (gql.Line position) (gql.Character position))
  /\
  (exists conn : graphql.DiagnosticConnectionResolver,
     fst (graphql.QueryResolver_Diagnostics r {| gql.DiagFirst := Some limit |}
            (mkWorld b log))
     = (Some conn, None)
     /\ Z.of_nat (List.length (graphql.diagnostics conn)) <= limit
     /\ graphql.diagnostics conn
        = firstn (Z.to_nat limit) (SpecResolver.diagnosticsOf b)
     /\ graphql.totalCount conn
        = Z.of_nat (List.length (SpecResolver.diagnosticsOf b))).
Proof.
  intros Hlimit Hfuel. split.
  - destruct (pageReferences_from b r position limit Hlimit fuel O None log)
      as [pages [log' [Hrun [Hbound Hconcat]]]].
    + left. split; reflexivity.
    + lia.
    + exists pages. rewrite Hrun. cbn [fst]. repeat split; assumption.
  - rewrite (Diagnostics_page b r limit Hlimit log). eexists.
    split; [reflexivity | ]. cbn [graphql.diagnostics graphql.totalCount].
    split; [ | split; reflexivity].
    pose proof (firstn_le_length (Z.to_nat limit) (SpecResolver.diagnosticsOf b)). lia.
Qed.

(** However often Diagnostics is asked, with a limit of two, for the
    three diagnostics of the sample bundle, the third is in no page. *)
Lemma third_diagnostic_never_paged (n : nat) (log : list Event) :
  ~ In (Sample.diag "c.go" 3 "deprecated")
       (List.concat
          (fst (Client.pageDiagnostics n Sample.r0 {| gql.DiagFirst := Some 2 |}
                  (mkWorld Sample.B log)))).
Proof.
  revert log. induction n as [ | n IH]; intros log; cbn [Client.pageDiagnostics].
  - intros [].
  - rewrite (Diagnostics_page Sample.B Sample.r0 2 eq_refl log).
    specialize (IH (log ++ [CallDiagnostics 2])).
    destruct (Client.pageDiagnostics n Sample.r0 {| gql.DiagFirst := Some 2 |}
                (mkWorld Sample.B (log ++ [CallDiagnostics 2]))) as [pages w'].
    cbn [fst graphql.diagnostics List.concat] in *.
    intros Hin. apply in_app_or in Hin. destruct Hin as [Hin | Hin].
    + cbn in Hin. destruct Hin as [Hin | [Hin | []]]; discriminate Hin.
    + exact (IH Hin).
Qed.

(** ** Concrete runs *)

(** The example scenario of the spec: three references to [foo]; the
    first call with limit 2 returns two locations and a cursor, the call
    with that cursor returns the remaining one and no cursor. *)
Example scenario_first_page :
  fst (graphql.QueryResolver_References Sample.r0 (Sample.paged 10 3 (Some 2) None)
         Sample.w0)
  = (Some (graphql.NewLocationConnectionResolver
             [Sample.loc "a.go" 10; Sample.loc "b.go" 20] (Some "v1:7:2") 1%nat),
     None).
Proof. reflexivity. Qed.

Example scenario_second_page :
  fst (graphql.QueryResolver_References Sample.r0
         (Sample.paged 10 3 (Some 2) (Some "v1:7:2")) Sample.w0)
  = (Some (graphql.NewLocationConnectionResolver [Sample.loc "c.go" 5] None 1%nat),
     None).
Proof. reflexivity. Qed.

Example scenario_calls :
  calls (snd (graphql.QueryResolver_References Sample.r0
                (Sample.paged 10 3 (Some 2) (Some "v1:7:2")) Sample.w0))
  = [CallDecodeCursor (Some "v1:7:2"); CallReferences 10 3 2 "v1:7:2"].
Proof. reflexivity. Qed.

Example foreign_cursor_refused_by_bundle :
  fst (graphql.QueryResolver_References Sample.r0
         (Sample.paged 10 3 (Some 2) (Some "v1:8:2")) Sample.w0)
  = (None, Some CursorCodec.ErrForeignCursor).
Proof. reflexivity. Qed.

Example tampered_cursor_refused :
  CursorCodec.Decode 7 "v1:07:2" = inr CursorCodec.ErrMalformedCursor
  /\ CursorCodec.Decode 7 "v2:7:2" = inr CursorCodec.ErrMalformedCursor
  /\ CursorCodec.Decode 7 "" = inl (CursorCodec.mkState 7 0).
Proof. repeat split. Qed.

Example sample_nodes :
  graphql.navViewConnectionResolver_Nodes
    (graphql.mkNavViewConnectionResolver [Sample.fooView; Sample.barView] 1%nat)
  = ([graphql.mkNavRangeResolver Sample.fooView 1%nat;
      graphql.mkNavRangeResolver Sample.barView 1%nat],
     None).
Proof. reflexivity. Qed.

Lemma illegal_limit_rejected_before_backend_witness :
  graphql.QueryResolver_References Sample.r0
    (Sample.paged 10 3 (Some 0) (Some "v1:7:2")) Sample.w0
  = ((None, Some ErrIllegalLimit), Sample.w0)
  /\ graphql.QueryResolver_Diagnostics Sample.r0 {| gql.DiagFirst := Some (-5) |} Sample.w0
     = ((None, Some ErrIllegalLimit), Sample.w0).
Proof.
  destruct (illegal_limit_rejected_before_backend
              (H := SpecHelpers.helpers) Sample.r0
              (Sample.paged 10 3 (Some 0) (Some "v1:7:2"))
              {| gql.DiagFirst := Some (-5) |} Sample.w0) as [HR [HD _]].
  split; [apply HR | apply HD]; cbn; lia.
Defined.

Lemma illegal_limit_precedes_cursor_decoding_witness :
  fst (graphql.QueryResolver_References Sample.r0
         (Sample.paged 10 3 (Some 0) (Some "not a cursor")) Sample.w0)
  = (None, Some ErrIllegalLimit)
  /\ calls (snd (graphql.QueryResolver_References Sample.r0
                   (Sample.paged 10 3 (Some 0) (Some "not a cursor")) Sample.w0))
     = [].
Proof.
  assert (Hlimit : graphql.derefInt32 (Helpers := SpecHelpers.helpers) (Some 0)
                     graphql.DefaultReferencesPageSize <= 0) by (cbn; lia).
  destruct (illegal_limit_precedes_cursor_decoding
              (H := SpecHelpers.helpers) Sample.r0 (Sample.at_ 10 3) (Some 0)
              Sample.w0 Hlimit (Some "not a cursor")) as [Hres [_ Hcalls]].
  split; [exact Hres | exact Hcalls].
Defined.

(** C5, as stated, fails: with a limit of zero and a cursor the decoder
    refuses, References returns the "illegal limit" error, not the
    decoder's. *)
Lemma refused_cursor_under_illegal_limit :
  let args := Sample.paged 10 3 (Some 0) (Some "not a cursor") in
  SpecHelpers.decodeCursor (gql.After args) = ("", Some CursorCodec.ErrMalformedCursor)
  /\ fst (graphql.QueryResolver_References Sample.r0 args Sample.w0)
     = (None, Some ErrIllegalLimit)
  /\ fst (graphql.QueryResolver_References Sample.r0 args Sample.w0)
     <> (None, Some CursorCodec.ErrMalformedCursor).
Proof. cbv zeta. split; [reflexivity | split; [reflexivity | discriminate]]. Qed.

Lemma refused_cursor_rejected_before_backend_witness :
  graphql.QueryResolver_References Sample.r0
    (Sample.paged 10 3 (Some 1) (Some "not a cursor")) Sample.w0
  = ((None, Some CursorCodec.ErrMalformedCursor),
     mkWorld Sample.B [CallDecodeCursor (Some "not a cursor")]).
Proof.
  destruct (refused_cursor_rejected_before_backend
              (H := SpecHelpers.helpers) Sample.r0
              (Sample.paged 10 3 (Some 1) (Some "not a cursor")) Sample.w0
              "" CursorCodec.ErrMalformedCursor eq_refl) as [Hres _].
  apply Hres. cbn. lia.
Defined.

Lemma no_definitions_is_empty_success_witness :
  exists conn : graphql.LocationConnectionResolver,
    fst (graphql.QueryResolver_Definitions Sample.r0 (Sample.at_ 1 1) Sample.w0)
    = (Some conn, None)
    /\ graphql.locations conn = []
    /\ graphql.cursor conn = None.
Proof.
  apply (no_definitions_is_empty_success
           Sample.r0 (Sample.at_ 1 1) Sample.w0 Sample.B).
  reflexivity.
Defined.

Lemma hover_not_found_is_not_an_error_witness :
  fst (graphql.QueryResolver_Hover Sample.r0 (Sample.at_ 1 1) Sample.w0)
  = (None, None)
  /\ fst (graphql.QueryResolver_Hover Sample.r0 (Sample.at_ 1 1) (mkWorld true []))
     = (None, None)
  /\ fst (graphql.QueryResolver_Hover Sample.r0 (Sample.at_ 1 1) (mkWorld false []))
     = (None, Some Sample.down)
  /\ fst (graphql.QueryResolver_Hover Sample.r0 (Sample.at_ 1 1) (mkWorld false []))
     <> (None, None).
Proof.
  destruct (hover_not_found_is_not_an_error
              (R := SpecResolver.resolver) (H := SpecHelpers.helpers)
              Sample.r0 (Sample.at_ 1 1) Sample.w0) as [Hbundle _].
  destruct (hover_not_found_is_not_an_error
              (R := Sample.flaky) (H := SpecHelpers.helpers)
              Sample.r0 (Sample.at_ 1 1) (mkWorld true [])) as [Hup _].
  destruct (hover_not_found_is_not_an_error
              (R := Sample.flaky) (H := SpecHelpers.helpers)
              Sample.r0 (Sample.at_ 1 1) (mkWorld false [])) as [_ Hdown].
  split; [ | split].
  - apply (Hbundle "" SpecResolver.zeroRange Sample.B). reflexivity.
  - apply (Hup "" SpecResolver.zeroRange true). reflexivity.
  - apply (Hdown "" SpecResolver.zeroRange false Sample.down false). reflexivity.
Defined.

Lemma cursor_round_trip_and_foreign_rejected_witness :
  CursorCodec.Decode 7 "v1:7:2" = inl (CursorCodec.mkState 7 2)
  /\ exists e : error, CursorCodec.Decode 8 "v1:7:2" = inr e.
Proof.
  split.
  - apply (proj1 (cursor_round_trip_and_foreign_rejected 7 (CursorCodec.mkState 7 2))).
    reflexivity.
  - apply (proj2 (cursor_round_trip_and_foreign_rejected 8 (CursorCodec.mkState 7 2))).
    discriminate.
Defined.

Lemma unset_limit_defaults_to_100_witness :
  backendCalls
    (calls (snd (graphql.QueryResolver_References Sample.r0
                   (Sample.paged 10 3 None None) Sample.w0)))
  = [CallReferences 10 3 100 ""]
  /\ calls (snd (graphql.QueryResolver_Diagnostics Sample.r0
                   {| gql.DiagFirst := None |} Sample.w0))
     = [CallDiagnostics 100].
Proof.
  destruct (unset_limit_defaults_to_100
              Sample.r0 (Sample.at_ 10 3) None "" Sample.w0 eq_refl)
    as [Hrefs [_ [Hdiags _]]].
  split; [exact Hrefs | exact Hdiags].
Defined.

Lemma pages_bounded_and_references_complete_witness :
  exists pages : list (list resolvers.AdjustedLocation),
    fst (Client.pageReferences 4 Sample.r0 (Sample.at_ 10 3) (Some 2) None Sample.w0)
    = Some pages
    /\ Forall (fun page => Z.of_nat (List.length page) <= 2) pages
    /\ List.concat pages = Sample.fooRefs.
Proof.
  destruct (pages_bounded_and_references_complete
              Sample.B Sample.r0 (Sample.at_ 10 3) 2 [] 4%nat) as [Hrefs _].
  - lia.
  - cbn. lia.
  - exact Hrefs.
Defined.

(** C8, as stated, fails for Diagnostics: the sample bundle has three
    diagnostics; with a limit of two the page has the first two and the
    connection has no cursor, asking again returns the same two, and
    however often the client asks, the third is never returned. *)
Lemma diagnostics_paging_omits_and_repeats :
  let args := {| gql.DiagFirst := Some 2 |} in
  let d1 := Sample.diag "a.go" 1 "unused" in
  let d2 := Sample.diag "b.go" 2 "shadowed" in
  let d3 := Sample.diag "c.go" 3 "deprecated" in
  0 < 2
  /\ SpecResolver.diagnosticsOf Sample.B = [d1; d2; d3]
  /\ fst (graphql.QueryResolver_Diagnostics Sample.r0 args Sample.w0)
     = (Some (graphql.NewDiagnosticConnectionResolver [d1; d2] 3 1%nat), None)
  /\ fst (Client.pageDiagnostics 2 Sample.r0 args Sample.w0) = [[d1; d2]; [d1; d2]]
  /\ forall n : nat,
       ~ In d3 (List.concat (fst (Client.pageDiagnostics n Sample.r0 args Sample.w0))).
Proof.
  cbv zeta. split; [lia | ]. split; [reflexivity | ]. split; [reflexivity | ].
  split; [reflexivity | ]. intros n. apply third_diagnostic_never_paged.
Qed.


(** * More of query.go *)

(** ** What each method does with the resolver's answer *)

Section Runs.

Context {S : Type} {R : resolvers.QueryResolver S} {H : graphql.Helpers}.

Lemma Definitions_run (r : graphql.QueryResolver)
    (args : gql.LSIFQueryPositionArgs) (w : World S) :
  graphql.QueryResolver_Definitions r args w =
  let line := gql.Line args in
  let character := gql.Character args in
  match resolvers.Definitions line character (backend w) with
  | ((_, Some e), s') =>
      ((None, Some e), mkWorld s' (calls w ++ [CallDefinitions line character]))
  | ((locations, None), s') =>
      ((Some (graphql.NewLocationConnectionResolver
                locations None (graphql.qrLocationResolver r)), None),
       mkWorld s' (calls w ++ [CallDefinitions line character]))
  end.
Proof.
  unfold graphql.QueryResolver_Definitions.
  cbv beta iota zeta delta [bind invoke ret].
  destruct (resolvers.Definitions _ _ (backend w)) as [[locations [e | ]] s'];
    reflexivity.
Qed.

Lemma Hover_run (r : graphql.QueryResolver)
    (args : gql.LSIFQueryPositionArgs) (w : World S) :
  graphql.QueryResolver_Hover r args w =
  let line := gql.Line args in
  let character := gql.Character args in
  match resolvers.Hover line character (backend w) with
  | ((_, _, _, Some e), s') =>
      ((None, Some e), mkWorld s' (calls w ++ [CallHover line character]))
  | ((_, _, false, None), s') =>
      ((None, None), mkWorld s' (calls w ++ [CallHover line character]))
  | ((text, rx, true, None), s') =>
      ((Some (graphql.NewHoverResolver text (graphql.convertRange rx)), None),
       mkWorld s' (calls w ++ [CallHover line character]))
  end.
Proof.
  unfold graphql.QueryResolver_Hover.
  cbv beta iota zeta delta [bind invoke ret].
  destruct (resolvers.Hover _ _ (backend w)) as [[[[text rx] [ | ]] [e | ]] s'];
    reflexivity.
Qed.

Lemma NavView_run (r : graphql.QueryResolver)
    (args : gql.LSIFNavViewArgs) (w : World S) :
  graphql.QueryResolver_NavView r args w =
  match resolvers.NavView (backend w) with
  | ((_, Some e), s') => ((None, Some e), mkWorld s' (calls w ++ [CallNavView]))
  | ((rangeViews, None), s') =>
      ((Some (graphql.mkNavViewConnectionResolver
                rangeViews (graphql.qrLocationResolver r)), None),
       mkWorld s' (calls w ++ [CallNavView]))
  end.
Proof.
  unfold graphql.QueryResolver_NavView.
  cbv beta iota zeta delta [bind invoke ret].
  destruct (resolvers.NavView (backend w)) as [[rangeViews [e | ]] s']; reflexivity.
Qed.

(** References, for every limit. *)
Lemma References_run (r : graphql.QueryResolver)
    (args : gql.LSIFPagedQueryPositionArgs) (w : World S) :
  graphql.QueryResolver_References r args w =
  let limit := graphql.derefInt32 (gql.First args) graphql.DefaultReferencesPageSize in
  if limit <=? 0 then ((None, Some ErrIllegalLimit), w)
  else
    let w1 := mkWorld (backend w) (calls w ++ [CallDecodeCursor (gql.After args)]) in
    match graphql.decodeCursor (gql.After args) with
    | (_, Some e) => ((None, Some e), w1)
    | (cursor, None) =>
        let line := gql.Line (gql.Position_ args) in
        let character := gql.Character (gql.Position_ args) in
        match resolvers.References line character limit cursor (backend w) with
        | ((_, _, Some e), s') =>
            ((None, Some e),
             mkWorld s' (calls w1 ++ [CallReferences line character limit cursor]))
        | ((locations, next, None), s') =>
            ((Some (graphql.NewLocationConnectionResolver
                      locations (graphql.strPtr next) (graphql.qrLocationResolver r)),
              None),
             mkWorld s' (calls w1 ++ [CallReferences line character limit cursor]))
        end
    end.
Proof.
  cbv zeta.
  destruct (Z.leb_spec
              (graphql.derefInt32 (gql.First args) graphql.DefaultReferencesPageSize) 0)
    as [Hle | Hpos].
  - apply References_illegal_limit, Hle.
  - apply (References_legal_limit r args w Hpos).
Qed.

(** Diagnostics, for every limit. *)
Lemma Diagnostics_run (r : graphql.QueryResolver)
    (args : gql.LSIFDiagnosticsArgs) (w : World S) :
  graphql.QueryResolver_Diagnostics r args w =
  let limit := graphql.derefInt32 (gql.DiagFirst args) graphql.DefaultDiagnosticsPageSize in
  if limit <=? 0 then ((None, Some ErrIllegalLimit), w)
  else
    match resolvers.Diagnostics limit (backend w) with
    | ((_, _, Some e), s') =>
        ((None, Some e), mkWorld s' (calls w ++ [CallDiagnostics limit]))
    | ((diagnostics, totalCount, None), s') =>
        ((Some (graphql.NewDiagnosticConnectionResolver
                  diagnostics totalCount (graphql.qrLocationResolver r)),
          None),
         mkWorld s' (calls w ++ [CallDiagnostics limit]))
    end.
Proof.
  cbv zeta.
  destruct (Z.leb_spec
              (graphql.derefInt32 (gql.DiagFirst args) graphql.DefaultDiagnosticsPageSize) 0)
    as [Hle | Hpos].
  - apply Diagnostics_illegal_limit, Hle.
  - apply (Diagnostics_legal_limit r args w Hpos).
Qed.

End Runs.

(** Split the answer of the collaborators a run depends on into its
    cases. *)
Ltac split_run :=
  cbv zeta;
  repeat match goal with
         | |- context [if ?b <=? 0 then _ else _] => destruct (b <=? 0) eqn:?
         | |- context [match ?x with (_, _) => _ end] =>
             destruct x as [? ?] eqn:?
         | |- context [match ?x with Some _ => _ | None => _ end] =>
             destruct x as [? | ] eqn:?
         | |- context [match ?x with true => _ | false => _ end] =>
             destruct x eqn:?
         end;
  cbn [fst snd calls backend].

Section Outcomes.

Context {S : Type} {R : resolvers.QueryResolver S} {H : graphql.Helpers}.

(** X1. Definitions, References, Diagnostics and NavView return either
    a resolver or an error, never both and never neither; Hover never
    returns both. *)
Theorem resolver_or_error_not_both (r : graphql.QueryResolver)
    (position : gql.LSIFQueryPositionArgs) (pargs : gql.LSIFPagedQueryPositionArgs)
    (dargs : gql.LSIFDiagnosticsArgs) (nargs : gql.LSIFNavViewArgs) (w : World S) :
  let definitions := fst (graphql.QueryResolver_Definitions r position w) in
  let references := fst (graphql.QueryResolver_References r pargs w) in
  let diagnostics := fst (graphql.QueryResolver_Diagnostics r dargs w) in
  let navView := fst (graphql.QueryResolver_NavView r nargs w) in
  let hover := fst (graphql.QueryResolver_Hover r position w) in
  (fst definitions = None <-> snd definitions <> None)
  /\ (fst references = None <-> snd references <> None)
  /\ (fst diagnostics = None <-> snd diagnostics <> None)
  /\ (fst navView = None <-> snd navView <> None)
  /\ (fst hover = None \/ snd hover = None).
Proof.
  cbv zeta.
  rewrite Definitions_run, References_run, Diagnostics_run, NavView_run, Hover_run.
  repeat split; split_run; try discriminate; try congruence; auto.
Qed.

(** X2. An error of the underlying resolver is returned as it is, with
    no resolver, by Definitions, References, Diagnostics and NavView:
    whatever data came with the error is dropped. *)
Theorem backend_error_returned_unchanged (r : graphql.QueryResolver)
    (position : gql.LSIFQueryPositionArgs) (pargs : gql.LSIFPagedQueryPositionArgs)
    (dargs : gql.LSIFDiagnosticsArgs) (nargs : gql.LSIFNavViewArgs) (w : World S)
    (e : error) :
  (forall locations s',
     resolvers.Definitions (gql.Line position) (gql.Character position) (backend w)
     = ((locations, Some e), s') ->
     fst (graphql.QueryResolver_Definitions r position w) = (None, Some e))
  /\ (forall cursor locations next s',
        0 < graphql.derefInt32 (gql.First pargs) graphql.DefaultReferencesPageSize ->
        graphql.decodeCursor (gql.After pargs) = (cursor, None) ->
        resolvers.References (gql.Line (gql.Position_ pargs))
          (gql.Character (gql.Position_ pargs))
          (graphql.derefInt32 (gql.First pargs) graphql.DefaultReferencesPageSize)
          cursor (backend w)
        = ((locations, next, Some e), s') ->
        fst (graphql.QueryResolver_References r pargs w) = (None, Some e))
  /\ (forall diagnostics totalCount s',
        0 < graphql.derefInt32 (gql.DiagFirst dargs) graphql.DefaultDiagnosticsPageSize ->
        resolvers.Diagnostics
          (graphql.derefInt32 (gql.DiagFirst dargs) graphql.DefaultDiagnosticsPageSize)
          (backend w)
        = ((diagnostics, totalCount, Some e), s') ->
        fst (graphql.QueryResolver_Diagnostics r dargs w) = (None, Some e))
  /\ (forall rangeViews s',
        resolvers.NavView (backend w) = ((rangeViews, Some e), s') ->
        fst (graphql.QueryResolver_NavView r nargs w) = (None, Some e)).
Proof.
  split; [ | split; [ | split]].
  - intros locations s' Hcall. rewrite Definitions_run. cbv zeta.
    rewrite Hcall. reflexivity.
  - intros cursor locations next s' Hpos Hdecode Hcall.
    rewrite (References_legal_limit r pargs w Hpos). cbv zeta.
    rewrite Hdecode, Hcall. reflexivity.
  - intros diagnostics totalCount s' Hpos Hcall.
    rewrite (Diagnostics_legal_limit r dargs w Hpos). cbv zeta.
    rewrite Hcall. reflexivity.
  - intros rangeViews s' Hcall. rewrite NavView_run. rewrite Hcall. reflexivity.
Qed.

(** X3. The calls References and Diagnostics add to the log, for every
    argument.  References adds nothing when the limit in force is not
    positive, the decoding alone when the decoder refuses the cursor,
    and otherwise the decoding and one call of the underlying resolver
    with the caller's line and character, the limit in force and the
    decoded cursor (not the [After] argument).  Diagnostics adds nothing
    when the limit in force is not positive and otherwise one call with
    that limit. *)
Theorem paged_methods_log (r : graphql.QueryResolver)
    (pargs : gql.LSIFPagedQueryPositionArgs) (dargs : gql.LSIFDiagnosticsArgs)
    (w : World S) :
  let limit := graphql.derefInt32 (gql.First pargs) graphql.DefaultReferencesPageSize in
  let dlimit := graphql.derefInt32 (gql.DiagFirst dargs) graphql.DefaultDiagnosticsPageSize in
  calls (snd (graphql.QueryResolver_References r pargs w))
  = calls w ++
    (if limit <=? 0 then []
     else CallDecodeCursor (gql.After pargs) ::
          match graphql.decodeCursor (gql.After pargs) with
          | (_, Some _) => []
          | (cursor, None) =>
              [CallReferences (gql.Line (gql.Position_ pargs))
                 (gql.Character (gql.Position_ pargs)) limit cursor]
          end)
  /\ calls (snd (graphql.QueryResolver_Diagnostics r dargs w))
     = calls w ++ (if dlimit <=? 0 then [] else [CallDiagnostics dlimit]).
Proof.
  cbv zeta. rewrite References_run, Diagnostics_run.
  split; split_run; rewrite <- ?app_assoc, ?app_nil_r; reflexivity.
Qed.

(** X4. Definitions, Hover and NavView check nothing: for every
    argument, also a negative line or character, each makes exactly one
    call of the underlying resolver, with the caller's line and
    character as they are, and the resolver moves as that call moves
    it. *)
Theorem unpaged_methods_always_call_once (r : graphql.QueryResolver)
    (position : gql.LSIFQueryPositionArgs) (nargs : gql.LSIFNavViewArgs) (w : World S) :
  let line := gql.Line position in
  let character := gql.Character position in
  snd (graphql.QueryResolver_Definitions r position w)
  = mkWorld (snd (resolvers.Definitions line character (backend w)))
            (calls w ++ [CallDefinitions line character])
  /\ snd (graphql.QueryResolver_Hover r position w)
     = mkWorld (snd (resolvers.Hover line character (backend w)))
               (calls w ++ [CallHover line character])
  /\ snd (graphql.QueryResolver_NavView r nargs w)
     = mkWorld (snd (resolvers.NavView (backend w))) (calls w ++ [CallNavView]).
Proof.
  cbv zeta. rewrite Definitions_run, Hover_run, NavView_run.
  repeat split; split_run; reflexivity.
Qed.

(** X5. Every method keeps the log free of calls with a limit that is
    not positive: if no logged call has one before a method runs, none
    has one after, whatever the arguments were. *)
Theorem methods_keep_limits_positive (r : graphql.QueryResolver)
    (position : gql.LSIFQueryPositionArgs) (pargs : gql.LSIFPagedQueryPositionArgs)
    (dargs : gql.LSIFDiagnosticsArgs) (nargs : gql.LSIFNavViewArgs) (w : World S) :
  Forall positiveLimit (calls w) ->
  Forall positiveLimit (calls (snd (graphql.QueryResolver_Definitions r position w)))
  /\ Forall positiveLimit (calls (snd (graphql.QueryResolver_References r pargs w)))
  /\ Forall positiveLimit (calls (snd (graphql.QueryResolver_Hover r position w)))
  /\ Forall positiveLimit (calls (snd (graphql.QueryResolver_Diagnostics r dargs w)))
  /\ Forall positiveLimit (calls (snd (graphql.QueryResolver_NavView r nargs w))).
Proof.
  intros Hlog.
  rewrite Definitions_run, References_run, Hover_run, Diagnostics_run, NavView_run.
  repeat split; split_run;
    repeat (apply Forall_app; split); try assumption;
    repeat constructor;
    match goal with
    | E : (_ <=? 0) = false |- _ => apply Z.leb_gt in E; exact E
    end.
Qed.

End Outcomes.

(** ** What a successful answer carries *)

Section Answers.

Context {S : Type} {R : resolvers.QueryResolver S} {H : graphql.Helpers}.

(** X6. Hover returns a resolver exactly when the underlying resolver
    reported a hover and no error, and then the resolver holds the
    reported text and the conversion of the reported range. *)
Theorem Hover_resolver_iff_found (r : graphql.QueryResolver)
    (args : gql.LSIFQueryPositionArgs) (w : World S)
    (text : string) (rx : lsifstore.Range) (found : bool) (err : option error) (s' : S) :
  resolvers.Hover (gql.Line args) (gql.Character args) (backend w)
  = ((text, rx, found, err), s') ->
  ((exists h, fst (fst (graphql.QueryResolver_Hover r args w)) = Some h)
   <-> (found = true /\ err = None))
  /\ (forall h, fst (fst (graphql.QueryResolver_Hover r args w)) = Some h ->
        h = graphql.NewHoverResolver text (graphql.convertRange rx)).
Proof.
  intros Hcall. rewrite Hover_run. cbv zeta. rewrite Hcall.
  destruct err as [e | ], found; cbn [fst snd]; split.
  all: try (split; [intros [h Hh]; discriminate Hh | intros [Hf He]; discriminate]).
  all: try (intros h Hh; discriminate Hh).
  - split; [intros _; split; reflexivity | intros _; eexists; reflexivity].
  - intros h [= <-]. reflexivity.
Qed.

(** X7. Definitions hands over every location the underlying resolver
    returned, in the resolver's order, with the location resolver of
    the query resolver and with no cursor; so does the Definitions of a
    range of the navigation view with the definitions of its range
    view. *)
Theorem Definitions_whole_and_unpaged (r : graphql.QueryResolver)
    (args : gql.LSIFQueryPositionArgs) (w : World S)
    (locations : list resolvers.AdjustedLocation) (s' : S)
    (node : graphql.navRangeResolver) :
  resolvers.Definitions (gql.Line args) (gql.Character args) (backend w)
  = ((locations, None), s') ->
  fst (graphql.QueryResolver_Definitions r args w)
  = (Some (graphql.NewLocationConnectionResolver
             locations None (graphql.qrLocationResolver r)), None)
  /\ graphql.navRangeResolver_Definitions node
     = (Some (graphql.NewLocationConnectionResolver
                (resolvers.Definitions_ (graphql.rangeView node)) None
                (graphql.nrLocationResolver node)), None).
Proof.
  intros Hcall. rewrite (Definitions_whole r args w locations s' Hcall).
  split; reflexivity.
Qed.

(** X8. References and Diagnostics hand over the page of the underlying
    resolver as it is: every item, also when there are more than the
    limit, and for Diagnostics the total count as reported.  The cursor
    of the References connection is [strPtr] of the cursor the resolver
    returned. *)
Theorem paged_methods_return_page_unchanged (r : graphql.QueryResolver)
    (pargs : gql.LSIFPagedQueryPositionArgs) (dargs : gql.LSIFDiagnosticsArgs)
    (w : World S) :
  (forall cursor locations next s',
     0 < graphql.derefInt32 (gql.First pargs) graphql.DefaultReferencesPageSize ->
     graphql.decodeCursor (gql.After pargs) = (cursor, None) ->
     resolvers.References (gql.Line (gql.Position_ pargs))
       (gql.Character (gql.Position_ pargs))
       (graphql.derefInt32 (gql.First pargs) graphql.DefaultReferencesPageSize)
       cursor (backend w)
     = ((locations, next, None), s') ->
     fst (graphql.QueryResolver_References r pargs w)
     = (Some (graphql.NewLocationConnectionResolver
                locations (graphql.strPtr next) (graphql.qrLocationResolver r)),
        None))
  /\ (forall diagnostics totalCount s',
        0 < graphql.derefInt32 (gql.DiagFirst dargs) graphql.DefaultDiagnosticsPageSize ->
        resolvers.Diagnostics
          (graphql.derefInt32 (gql.DiagFirst dargs) graphql.DefaultDiagnosticsPageSize)
          (backend w)
        = ((diagnostics, totalCount, None), s') ->
        fst (graphql.QueryResolver_Diagnostics r dargs w)
        = (Some (graphql.NewDiagnosticConnectionResolver
                   diagnostics totalCount (graphql.qrLocationResolver r)),
           None)).
Proof.
  split.
  - intros cursor locations next s' Hpos Hdecode Hcall.
    rewrite (References_legal_limit r pargs w Hpos). cbv zeta.
    rewrite Hdecode, Hcall. reflexivity.
  - intros diagnostics totalCount s' Hpos Hcall.
    rewrite (Diagnostics_legal_limit r dargs w Hpos). cbv zeta.
    rewrite Hcall. reflexivity.
Qed.

(** X9. When the underlying resolver returns range views and no error,
    the Nodes of the connection NavView returns are one node per
    returned range view, in the returned order, each with the location
    resolver of the query resolver. *)
Theorem NavView_then_Nodes (r : graphql.QueryResolver)
    (args : gql.LSIFNavViewArgs) (w : World S)
    (rangeViews : list resolvers.RangeView) (s' : S) :
  resolvers.NavView (backend w) = ((rangeViews, None), s') ->
  exists conn : graphql.navViewConnectionResolver,
    fst (graphql.QueryResolver_NavView r args w) = (Some conn, None)
    /\ graphql.navViewConnectionResolver_Nodes conn
       = (map (fun rv => graphql.mkNavRangeResolver rv (graphql.qrLocationResolver r))
              rangeViews,
          None)
    /\ map graphql.rangeView (fst (graphql.navViewConnectionResolver_Nodes conn))
       = rangeViews.
Proof.
  intros Hcall. rewrite NavView_run, Hcall. eexists. split; [reflexivity | ].
  rewrite Nodes_is_map. cbn [fst graphql.rangeViews graphql.nvLocationResolver].
  split; [reflexivity | ].
  rewrite map_map. cbn [graphql.rangeView]. apply map_id.
Qed.

(** X10. Through NavView and Nodes, the node at an index answers from
    the range view the underlying resolver returned at that index:
    Range, Definitions and Hover succeed with the range view's range,
    its definitions (with no cursor) and its hover text and range;
    References fails. *)
Theorem NavView_node_answers_from_its_range_view (r : graphql.QueryResolver)
    (args : gql.LSIFNavViewArgs) (w : World S)
    (rangeViews : list resolvers.RangeView) (s' : S)
    (i : nat) (rv : resolvers.RangeView) :
  resolvers.NavView (backend w) = ((rangeViews, None), s') ->
  nth_error rangeViews i = Some rv ->
  exists (conn : graphql.navViewConnectionResolver) (node : graphql.navRangeResolver),
    fst (graphql.QueryResolver_NavView r args w) = (Some conn, None)
    /\ nth_error (fst (graphql.navViewConnectionResolver_Nodes conn)) i = Some node
    /\ graphql.navRangeResolver_Range node
       = (Some (graphql.NewRangeResolver (graphql.convertRange (resolvers.Range rv))),
          None)
    /\ graphql.navRangeResolver_Definitions node
       = (Some (graphql.NewLocationConnectionResolver
                  (resolvers.Definitions_ rv) None (graphql.qrLocationResolver r)),
          None)
    /\ graphql.navRangeResolver_Hover node
       = (Some (graphql.NewHoverResolver (resolvers.HoverText rv)
                  (graphql.convertRange (resolvers.HoverRange rv))),
          None)
    /\ fst (graphql.navRangeResolver_References node) = None.
Proof.
  intros Hcall Hnth. rewrite NavView_run, Hcall.
  eexists. exists (graphql.mkNavRangeResolver rv (graphql.qrLocationResolver r)).
  split; [reflexivity | ].
  rewrite Nodes_is_map. cbn [fst graphql.rangeViews graphql.nvLocationResolver].
  split; [ | repeat split].
  rewrite nth_error_map, Hnth. reflexivity.
Qed.

End Answers.

(** * The rate-limit monitor *)

(** The quotient of nothing left by no cost is not a number: it is
    neither below 1 nor above 250 or 500, and nothing left is a zero
    duration. *)
Lemma nothing_left_no_cost :
  let limitRemaining := (ratelimit.float64 0 * 0x1.999999999999ap-1)%float in
  let n := (limitRemaining / ratelimit.float64 0)%float in
  PrimFloat.ltb n 1%float = false
  /\ PrimFloat.ltb 500%float n = false
  /\ PrimFloat.ltb 250%float n = false
  /\ ratelimit.toDuration limitRemaining = 0.
Proof. vm_compute. repeat split. Qed.

Section MonitorLaws.

Context {T : Type} {TO : ratelimit.TimeOps T} {SC : ratelimit.Strconv}.

(** X11. Update replaces the quota as a whole or not at all.  For a
    response that is not from a cache, [known] is set exactly when the
    limit, remaining and reset headers all parse; then the three fields
    are the parsed values, and otherwise all three keep the values they
    had, also the ones whose header did parse. *)
Theorem Update_quota_all_or_nothing (c : ratelimit.Monitor T) (h : ratelimit.Header)
    (wall : T) :
  h "X-From-Cache" = "" ->
  let c' := ratelimit.Update c h wall in
  let l := ratelimit.Atoi (h (ratelimit.HeaderPrefix c ++ "RateLimit-Limit")%string) in
  let r := ratelimit.Atoi (h (ratelimit.HeaderPrefix c ++ "RateLimit-Remaining")%string) in
  let t := ratelimit.ParseInt (h (ratelimit.HeaderPrefix c ++ "RateLimit-Reset")%string) in
  (ratelimit.known c' = true <-> (snd l = None /\ snd r = None /\ snd t = None))
  /\ (ratelimit.known c' = true ->
      ratelimit.limit c' = fst l
      /\ ratelimit.remaining c' = fst r
      /\ ratelimit.reset c' = ratelimit.Unix (fst t) 0)
  /\ (ratelimit.known c' = false ->
      ratelimit.limit c' = ratelimit.limit c
      /\ ratelimit.remaining c' = ratelimit.remaining c
      /\ ratelimit.reset c' = ratelimit.reset c).
Proof.
  intros Hfresh. cbv zeta. unfold ratelimit.Update. rewrite Hfresh.
  cbn [String.eqb negb].
  destruct (0 <? fst (ratelimit.ParseInt (h "Retry-After")));
    cbn [ratelimit.HeaderPrefix ratelimit.setRetry];
    destruct (ratelimit.Atoi (h (ratelimit.HeaderPrefix c ++ "RateLimit-Limit")%string))
      as [lv [le | ]];
    destruct (ratelimit.Atoi (h (ratelimit.HeaderPrefix c ++ "RateLimit-Remaining")%string))
      as [rv [re | ]];
    destruct (ratelimit.ParseInt (h (ratelimit.HeaderPrefix c ++ "RateLimit-Reset")%string))
      as [tv [te | ]];
    cbn; repeat split; try discriminate; try tauto;
    intros [? [? ?]]; discriminate.
Qed.

(** The retry deadline after an Update with a response that is not from
    a cache. *)
Lemma Update_retry (c : ratelimit.Monitor T) (h : ratelimit.Header) (wall : T) :
  h "X-From-Cache" = "" ->
  ratelimit.retry (ratelimit.Update c h wall)
  = if 0 <? fst (ratelimit.ParseInt (h "Retry-After"))
    then ratelimit.Add (ratelimit.now c wall)
           (ratelimit.wrap64 (fst (ratelimit.ParseInt (h "Retry-After"))
                              * ratelimit.Second))
    else ratelimit.retry c.
Proof.
  intros Hfresh. unfold ratelimit.Update. rewrite Hfresh.
  cbn [String.eqb negb].
  destruct (0 <? fst (ratelimit.ParseInt (h "Retry-After")));
    cbn [ratelimit.HeaderPrefix ratelimit.setRetry];
    destruct (ratelimit.Atoi (h (ratelimit.HeaderPrefix c ++ "RateLimit-Limit")%string))
      as [lv [le | ]];
    destruct (ratelimit.Atoi (h (ratelimit.HeaderPrefix c ++ "RateLimit-Remaining")%string))
      as [rv [re | ]];
    destruct (ratelimit.ParseInt (h (ratelimit.HeaderPrefix c ++ "RateLimit-Reset")%string))
      as [tv [te | ]];
    reflexivity.
Qed.

(** X12. Update sets the retry deadline from the Retry-After header
    alone: for a response that is not from a cache, a positive number
    of seconds moves the deadline to that long after now, whatever the
    quota headers hold, and anything else leaves the deadline as it was;
    Update never clears it. *)
Theorem Update_retry_deadline (c : ratelimit.Monitor T) (h : ratelimit.Header)
    (wall : T) :
  h "X-From-Cache" = "" ->
  let seconds := fst (ratelimit.ParseInt (h "Retry-After")) in
  let l := ratelimit.Atoi (h (ratelimit.HeaderPrefix c ++ "RateLimit-Limit")%string) in
  ratelimit.retry (ratelimit.Update c h wall)
  = (if 0 <? seconds
     then ratelimit.Add (ratelimit.now c wall)
                        (ratelimit.wrap64 (seconds * ratelimit.Second))
     else ratelimit.retry c)
  /\ (0 < seconds -> snd l <> None ->
      ratelimit.known (ratelimit.Update c h wall) = false
      /\ ratelimit.retry (ratelimit.Update c h wall)
         = ratelimit.Add (ratelimit.now c wall)
                         (ratelimit.wrap64 (seconds * ratelimit.Second))).
Proof.
  intros Hfresh. cbv zeta. split; [apply (Update_retry c h wall Hfresh) | ].
  intros Hpos Herr. split.
  - unfold ratelimit.Update. rewrite Hfresh. cbn [String.eqb negb].
    apply Z.ltb_lt in Hpos. rewrite Hpos.
    cbn [ratelimit.HeaderPrefix ratelimit.setRetry].
    destruct (ratelimit.Atoi (h (ratelimit.HeaderPrefix c ++ "RateLimit-Limit")%string))
      as [lv [le | ]]; [reflexivity | contradiction Herr; reflexivity].
  - rewrite (Update_retry c h wall Hfresh).
    apply Z.ltb_lt in Hpos. rewrite Hpos. reflexivity.
Qed.

(** X13. A response from a cache changes nothing in the monitor, not
    even the retry deadline; and no response changes the header prefix
    or the clock. *)
Theorem Update_frame (c : ratelimit.Monitor T) (h : ratelimit.Header) (wall : T) :
  (h "X-From-Cache" <> "" -> ratelimit.Update c h wall = c)
  /\ ratelimit.HeaderPrefix (ratelimit.Update c h wall) = ratelimit.HeaderPrefix c
  /\ ratelimit.clock (ratelimit.Update c h wall) = ratelimit.clock c.
Proof.
  unfold ratelimit.Update.
  destruct (String.eqb_spec (h "X-From-Cache") "") as [Hfresh | Hcached];
    cbn [negb].
  - split; [intros Hne; contradiction | ].
    destruct (0 <? fst (ratelimit.ParseInt (h "Retry-After")));
      cbn [ratelimit.HeaderPrefix ratelimit.setRetry];
      destruct (ratelimit.Atoi (h (ratelimit.HeaderPrefix c ++ "RateLimit-Limit")%string))
        as [lv [le | ]];
      destruct (ratelimit.Atoi (h (ratelimit.HeaderPrefix c ++ "RateLimit-Remaining")%string))
        as [rv [re | ]];
      destruct (ratelimit.ParseInt (h (ratelimit.HeaderPrefix c ++ "RateLimit-Reset")%string))
        as [tv [te | ]];
      split; reflexivity.
  - repeat split.
Qed.

(** X14. A retry deadline that is still ahead decides the answer of
    RecommendedWaitForBackgroundOp: the time left until the deadline,
    whatever the cost and whatever is known of the quota, and the
    monitor is left as it was. *)
Theorem pending_retry_decides_wait (c : ratelimit.Monitor T) (cost : Z) (wall : T) :
  ratelimit.IsZero (ratelimit.retry c) = false ->
  0 < ratelimit.Sub (ratelimit.retry c) (ratelimit.now c wall) ->
  ratelimit.RecommendedWaitForBackgroundOp c cost wall
  = (ratelimit.Returns (ratelimit.Sub (ratelimit.retry c) (ratelimit.now c wall)), c).
Proof.
  intros Hset Hahead. unfold ratelimit.RecommendedWaitForBackgroundOp. cbv zeta.
  rewrite Hset. apply Z.ltb_lt in Hahead. rewrite Hahead. reflexivity.
Qed.

(** X15. RecommendedWaitForBackgroundOp changes the monitor in one way
    only: it sets a retry deadline that has passed back to the zero
    time.  Every other field is kept, and a deadline that is zero or
    still ahead is kept too. *)
Theorem wait_only_clears_passed_retry (c : ratelimit.Monitor T) (cost : Z) (wall : T) :
  let c' := snd (ratelimit.RecommendedWaitForBackgroundOp c cost wall) in
  let passed :=
    negb (ratelimit.IsZero (ratelimit.retry c))
    && (ratelimit.Sub (ratelimit.retry c) (ratelimit.now c wall) <=? 0) in
  c' = ratelimit.setRetry c
         (if passed then ratelimit.zeroTime else ratelimit.retry c).
Proof.
  cbv zeta. unfold ratelimit.RecommendedWaitForBackgroundOp. cbv zeta.
  destruct c as [prefix known limit remaining reset retry clock].
  cbn [ratelimit.retry ratelimit.known ratelimit.reset ratelimit.limit
       ratelimit.remaining ratelimit.setRetry ratelimit.HeaderPrefix ratelimit.clock].
  set (now_ := ratelimit.now _ wall).
  destruct (ratelimit.IsZero retry); cbn [negb andb].
  - cbn [ratelimit.known ratelimit.reset ratelimit.limit ratelimit.remaining].
    repeat match goal with
           | |- context [if ?b then _ else _] => destruct b
           end; reflexivity.
  - destruct (Z.ltb_spec 0 (ratelimit.Sub retry now_)) as [Hahead | Hpassed].
    + destruct (Z.leb_spec (ratelimit.Sub retry now_) 0); [lia | reflexivity].
    + destruct (Z.leb_spec (ratelimit.Sub retry now_) 0); [ | lia].
      cbn [ratelimit.known ratelimit.reset ratelimit.limit ratelimit.remaining
           ratelimit.setRetry ratelimit.HeaderPrefix ratelimit.clock ratelimit.retry].
      repeat match goal with
             | |- context [if ?b then _ else _] => destruct b
             end; reflexivity.
Qed.

(** X16. While the quota is not known, RecommendedWaitForBackgroundOp
    returns the time left until a retry deadline that is still ahead,
    and zero otherwise: it never panics, whatever the cost. *)
Theorem unknown_quota_waits_for_retry_only (c : ratelimit.Monitor T) (cost : Z)
    (wall : T) :
  ratelimit.known c = false ->
  fst (ratelimit.RecommendedWaitForBackgroundOp c cost wall)
  = if negb (ratelimit.IsZero (ratelimit.retry c))
       && (0 <? ratelimit.Sub (ratelimit.retry c) (ratelimit.now c wall))
    then ratelimit.Returns (ratelimit.Sub (ratelimit.retry c) (ratelimit.now c wall))
    else ratelimit.Returns 0.
Proof.
  intros Hunknown. unfold ratelimit.RecommendedWaitForBackgroundOp. cbv zeta.
  destruct (negb (ratelimit.IsZero (ratelimit.retry c))
            && (0 <? ratelimit.Sub (ratelimit.retry c) (ratelimit.now c wall)));
    [reflexivity | ].
  destruct (negb (ratelimit.IsZero (ratelimit.retry c)));
    cbn [ratelimit.known ratelimit.setRetry]; rewrite Hunknown; reflexivity.
Qed.

(** X17. With a known quota of which nothing is left and no retry
    deadline ahead, RecommendedWaitForBackgroundOp asked for an
    operation of cost zero panics: the ratio of what is left to the cost
    is not a number, none of the three comparisons holds, and the last
    line divides by a zero duration. *)
Theorem zero_cost_on_exhausted_quota_panics (c : ratelimit.Monitor T) (wall : T) :
  ratelimit.known c = true ->
  negb (ratelimit.IsZero (ratelimit.retry c))
  && (0 <? ratelimit.Sub (ratelimit.retry c) (ratelimit.now c wall)) = false ->
  (if ratelimit.After (ratelimit.now c wall) (ratelimit.reset c)
   then ratelimit.limit c else ratelimit.remaining c) = 0 ->
  fst (ratelimit.RecommendedWaitForBackgroundOp c 0 wall)
  = ratelimit.Panics "integer divide by zero".
Proof.
  intros Hknown Hretry Hleft.
  destruct nothing_left_no_cost as [Hlt [H500 [H250 Hzero]]].
  unfold ratelimit.RecommendedWaitForBackgroundOp. cbv zeta.
  rewrite Hretry.
  assert (Hk : ratelimit.known
                 (if negb (ratelimit.IsZero (ratelimit.retry c))
                  then ratelimit.setRetry c ratelimit.zeroTime else c) = true).
  { destruct (negb (ratelimit.IsZero (ratelimit.retry c))); exact Hknown. }
  rewrite Hk. cbn [negb].
  assert (Hreset : ratelimit.reset
                     (if negb (ratelimit.IsZero (ratelimit.retry c))
                      then ratelimit.setRetry c ratelimit.zeroTime else c)
                   = ratelimit.reset c).
  { destruct (negb (ratelimit.IsZero (ratelimit.retry c))); reflexivity. }
  assert (Hlimit : ratelimit.limit
                     (if negb (ratelimit.IsZero (ratelimit.retry c))
                      then ratelimit.setRetry c ratelimit.zeroTime else c)
                   = ratelimit.limit c).
  { destruct (negb (ratelimit.IsZero (ratelimit.retry c))); reflexivity. }
  assert (Hremaining : ratelimit.remaining
                         (if negb (ratelimit.IsZero (ratelimit.retry c))
                          then ratelimit.setRetry c ratelimit.zeroTime else c)
                       = ratelimit.remaining c).
  { destruct (negb (ratelimit.IsZero (ratelimit.retry c))); reflexivity. }
  rewrite Hreset, Hlimit, Hremaining.
  destruct (ratelimit.After (ratelimit.now c wall) (ratelimit.reset c));
    rewrite Hleft; rewrite Hlt, H500, H250, Hzero; reflexivity.
Qed.

(** X18. A Retry-After header is honoured by the next
    RecommendedWaitForBackgroundOp: after an Update with a response that
    is not from a cache and asks to retry after a positive number of
    seconds, the wait is the time left until that long after the
    Update, as long as this deadline is not the zero time and is still
    ahead; the quota headers and the cost play no part. *)
Theorem retry_after_is_honoured (c : ratelimit.Monitor T) (h : ratelimit.Header)
    (wall wall' : T) (cost : Z) :
  h "X-From-Cache" = "" ->
  let seconds := fst (ratelimit.ParseInt (h "Retry-After")) in
  let deadline :=
    ratelimit.Add (ratelimit.now c wall) (ratelimit.wrap64 (seconds * ratelimit.Second)) in
  let c' := ratelimit.Update c h wall in
  0 < seconds ->
  ratelimit.IsZero deadline = false ->
  0 < ratelimit.Sub deadline (ratelimit.now c' wall') ->
  ratelimit.RecommendedWaitForBackgroundOp c' cost wall'
  = (ratelimit.Returns (ratelimit.Sub deadline (ratelimit.now c' wall')), c').
Proof.
  intros Hfresh seconds deadline c' Hpos Hset Hahead.
  assert (Hretry : ratelimit.retry c' = deadline).
  { unfold c'. rewrite (Update_retry c h wall Hfresh).
    apply Z.ltb_lt in Hpos. fold seconds. rewrite Hpos. reflexivity. }
  unfold ratelimit.RecommendedWaitForBackgroundOp. cbv zeta.
  rewrite Hretry, Hset. apply Z.ltb_lt in Hahead. rewrite Hahead. reflexivity.
Qed.

End MonitorLaws.

(** ** Concrete runs of the added properties *)

(** The example in the comment of [RecommendedWaitForBackgroundOp]:
    1500 points left, reset in 30 minutes, cost 500.  With the
    conservative factor and the added three minutes the wait is 13
    minutes and 45 seconds. *)
Example documented_example_wait :
  fst (ratelimit.RecommendedWaitForBackgroundOp
         (ratelimit.Update RateSample.fresh RateSample.quota RateSample.noon)
         500 RateSample.noon)
  = ratelimit.Returns (13 * ratelimit.Minute + 45 * ratelimit.Second).
Proof. vm_compute. reflexivity. Qed.

(** A resolver that returns three locations when asked for two: the
    connection holds all three. *)
Example page_longer_than_limit_passes :
  graphql.locations
    (graphql.NewLocationConnectionResolver Sample.fooRefs None 1%nat)
  = Sample.fooRefs
  /\ fst (graphql.QueryResolver_References Sample.r0
            (Sample.paged 10 3 (Some 3) None) Sample.w0)
     = (Some (graphql.NewLocationConnectionResolver Sample.fooRefs None 1%nat), None).
Proof. split; reflexivity. Qed.

Lemma backend_error_returned_unchanged_witness :
  fst (graphql.QueryResolver_Definitions Sample.r0 (Sample.at_ 1 1) (mkWorld false []))
  = (None, Some Sample.down)
  /\ fst (graphql.QueryResolver_References Sample.r0
            (Sample.paged 1 1 (Some 5) None) (mkWorld false []))
     = (None, Some Sample.down)
  /\ fst (graphql.QueryResolver_Diagnostics Sample.r0
            {| gql.DiagFirst := Some 5 |} (mkWorld false []))
     = (None, Some Sample.down)
  /\ fst (graphql.QueryResolver_NavView Sample.r0 gql.Build_LSIFNavViewArgs
            (mkWorld false []))
     = (None, Some Sample.down).
Proof.
  destruct (backend_error_returned_unchanged
              (R := Sample.flaky) (H := SpecHelpers.helpers)
              Sample.r0 (Sample.at_ 1 1) (Sample.paged 1 1 (Some 5) None)
              {| gql.DiagFirst := Some 5 |} gql.Build_LSIFNavViewArgs
              (mkWorld false []) Sample.down) as [HD [HR [HG HN]]].
  split; [ | split; [ | split]].
  - apply (HD [] false). reflexivity.
  - apply (HR "" [] "" false); [cbn; lia | reflexivity | reflexivity].
  - apply (HG [] 0 false); [cbn; lia | reflexivity].
  - apply (HN [] false). reflexivity.
Defined.

Lemma methods_keep_limits_positive_witness :
  Forall positiveLimit
    (calls (snd (graphql.QueryResolver_References Sample.r0
                   (Sample.paged 10 3 (Some 2) None) Sample.w0)))
  /\ Forall positiveLimit
       (calls (snd (graphql.QueryResolver_Diagnostics Sample.r0
                      {| gql.DiagFirst := Some (-1) |} Sample.w0))).
Proof.
  destruct (methods_keep_limits_positive
              (H := SpecHelpers.helpers) Sample.r0 (Sample.at_ 10 3)
              (Sample.paged 10 3 (Some 2) None) {| gql.DiagFirst := Some (-1) |}
              gql.Build_LSIFNavViewArgs Sample.w0 (Forall_nil positiveLimit))
    as [_ [HR [_ [HG _]]]].
  split; [exact HR | exact HG].
Defined.

Lemma Hover_resolver_iff_found_witness :
  ((exists h, fst (fst (graphql.QueryResolver_Hover Sample.r0 (Sample.at_ 10 3)
                          Sample.w0)) = Some h)
   <-> (true = true /\ @None error = None))
  /\ (forall h,
        fst (fst (graphql.QueryResolver_Hover Sample.r0 (Sample.at_ 10 3) Sample.w0))
        = Some h ->
        h = graphql.NewHoverResolver "func foo()"
              (graphql.convertRange (Sample.rangeAt 10 3))).
Proof.
  apply (Hover_resolver_iff_found
           (H := SpecHelpers.helpers) Sample.r0 (Sample.at_ 10 3) Sample.w0
           "func foo()" (Sample.rangeAt 10 3) true None Sample.B).
  reflexivity.
Defined.

Lemma Definitions_whole_and_unpaged_witness :
  fst (graphql.QueryResolver_Definitions Sample.r0 (Sample.at_ 10 3) Sample.w0)
  = (Some (graphql.NewLocationConnectionResolver [Sample.loc "a.go" 10] None 1%nat),
     None).
Proof.
  assert (Hcall : resolvers.Definitions (gql.Line (Sample.at_ 10 3))
                    (gql.Character (Sample.at_ 10 3)) (backend Sample.w0)
                  = (([Sample.loc "a.go" 10], None), Sample.B)) by reflexivity.
  apply (proj1 (Definitions_whole_and_unpaged
                  Sample.r0 (Sample.at_ 10 3) Sample.w0 [Sample.loc "a.go" 10]
                  Sample.B (graphql.mkNavRangeResolver Sample.fooView 1%nat)
                  Hcall)).
Defined.

Lemma paged_methods_return_page_unchanged_witness :
  fst (graphql.QueryResolver_References Sample.r0
         (Sample.paged 10 3 (Some 2) None) Sample.w0)
  = (Some (graphql.NewLocationConnectionResolver
             [Sample.loc "a.go" 10; Sample.loc "b.go" 20] (Some "v1:7:2") 1%nat),
     None)
  /\ fst (graphql.QueryResolver_Diagnostics Sample.r0
            {| gql.DiagFirst := Some 2 |} Sample.w0)
     = (Some (graphql.NewDiagnosticConnectionResolver
                [Sample.diag "a.go" 1 "unused"; Sample.diag "b.go" 2 "shadowed"]
                3 1%nat),
        None).
Proof.
  destruct (paged_methods_return_page_unchanged
              (H := SpecHelpers.helpers) Sample.r0
              (Sample.paged 10 3 (Some 2) None) {| gql.DiagFirst := Some 2 |}
              Sample.w0) as [HR HG].
  split.
  - apply (HR "" [Sample.loc "a.go" 10; Sample.loc "b.go" 20] "v1:7:2" Sample.B);
      [cbn; lia | reflexivity | reflexivity].
  - apply (HG [Sample.diag "a.go" 1 "unused"; Sample.diag "b.go" 2 "shadowed"]
              3 Sample.B); [cbn; lia | reflexivity].
Defined.

Lemma NavView_then_Nodes_witness :
  exists conn : graphql.navViewConnectionResolver,
    fst (graphql.QueryResolver_NavView Sample.r0 gql.Build_LSIFNavViewArgs Sample.w0)
    = (Some conn, None)
    /\ graphql.navViewConnectionResolver_Nodes conn
       = (map (fun rv => graphql.mkNavRangeResolver rv 1%nat)
              [Sample.fooView; Sample.barView],
          None)
    /\ map graphql.rangeView (fst (graphql.navViewConnectionResolver_Nodes conn))
       = [Sample.fooView; Sample.barView].
Proof.
  apply (NavView_then_Nodes
           (R := SpecResolver.resolver)
           Sample.r0 gql.Build_LSIFNavViewArgs Sample.w0
           [Sample.fooView; Sample.barView] Sample.B eq_refl).
Defined.

Lemma NavView_node_answers_from_its_range_view_witness :
  exists (conn : graphql.navViewConnectionResolver) (node : graphql.navRangeResolver),
    fst (graphql.QueryResolver_NavView Sample.r0 gql.Build_LSIFNavViewArgs Sample.w0)
    = (Some conn, None)
    /\ nth_error (fst (graphql.navViewConnectionResolver_Nodes conn)) 1 = Some node
    /\ graphql.navRangeResolver_Range node
       = (Some (graphql.NewRangeResolver
                  (graphql.convertRange (resolvers.Range Sample.barView))), None)
    /\ graphql.navRangeResolver_Definitions node
       = (Some (graphql.NewLocationConnectionResolver
                  (resolvers.Definitions_ Sample.barView) None 1%nat), None)
    /\ graphql.navRangeResolver_Hover node
       = (Some (graphql.NewHoverResolver (resolvers.HoverText Sample.barView)
                  (graphql.convertRange (resolvers.HoverRange Sample.barView))),
          None)
    /\ fst (graphql.navRangeResolver_References node) = None.
Proof.
  apply (NavView_node_answers_from_its_range_view
           (R := SpecResolver.resolver) (H := SpecHelpers.helpers) Sample.r0 gql.Build_LSIFNavViewArgs Sample.w0
           [Sample.fooView; Sample.barView] Sample.B 1%nat Sample.barView
           eq_refl eq_refl).
Defined.

Lemma Update_quota_all_or_nothing_witness :
  ratelimit.known
    (ratelimit.Update RateSample.exhausted RateSample.retryLater RateSample.noon)
  = false
  /\ ratelimit.limit
       (ratelimit.Update RateSample.exhausted RateSample.retryLater RateSample.noon)
     = 5000
  /\ ratelimit.remaining
       (ratelimit.Update RateSample.fresh RateSample.quota RateSample.noon)
     = 1500.
Proof.
  destruct (Update_quota_all_or_nothing
              RateSample.exhausted RateSample.retryLater RateSample.noon eq_refl)
    as [_ [_ Hkept]].
  destruct (Update_quota_all_or_nothing
              RateSample.fresh RateSample.quota RateSample.noon eq_refl)
    as [_ [Hset _]].
  split; [reflexivity | split].
  - apply (Hkept eq_refl).
  - apply (Hset eq_refl).
Defined.

Lemma Update_retry_deadline_witness :
  ratelimit.retry
    (ratelimit.Update RateSample.fresh RateSample.retryLater RateSample.noon)
  = RateSample.noon + 30 * ratelimit.Second
  /\ ratelimit.known
       (ratelimit.Update RateSample.fresh RateSample.retryLater RateSample.noon)
     = false.
Proof.
  destruct (Update_retry_deadline
              RateSample.fresh RateSample.retryLater RateSample.noon eq_refl)
    as [Hretry Hbad].
  split.
  - exact Hretry.
  - apply Hbad; [reflexivity | discriminate].
Defined.

Lemma Update_frame_witness :
  ratelimit.Update RateSample.fresh RateSample.cached RateSample.noon
  = RateSample.fresh.
Proof.
  apply (proj1 (Update_frame RateSample.fresh RateSample.cached RateSample.noon)).
  discriminate.
Defined.

Lemma pending_retry_decides_wait_witness :
  ratelimit.RecommendedWaitForBackgroundOp RateSample.waiting 500 RateSample.noon
  = (ratelimit.Returns ratelimit.Minute, RateSample.waiting).
Proof.
  exact (pending_retry_decides_wait RateSample.waiting 500 RateSample.noon
           eq_refl eq_refl).
Defined.

Lemma unknown_quota_waits_for_retry_only_witness :
  fst (ratelimit.RecommendedWaitForBackgroundOp RateSample.fresh 500 RateSample.noon)
  = ratelimit.Returns 0.
Proof.
  exact (unknown_quota_waits_for_retry_only RateSample.fresh 500 RateSample.noon
           eq_refl).
Defined.

Lemma zero_cost_on_exhausted_quota_panics_witness :
  fst (ratelimit.RecommendedWaitForBackgroundOp RateSample.exhausted 0 RateSample.noon)
  = ratelimit.Panics "integer divide by zero".
Proof.
  exact (zero_cost_on_exhausted_quota_panics RateSample.exhausted RateSample.noon
           eq_refl eq_refl eq_refl).
Defined.

Lemma retry_after_is_honoured_witness :
  ratelimit.RecommendedWaitForBackgroundOp
    (ratelimit.Update RateSample.exhausted RateSample.retryLater RateSample.noon)
    0 (RateSample.noon + 10 * ratelimit.Second)
  = (ratelimit.Returns (20 * ratelimit.Second),
     ratelimit.Update RateSample.exhausted RateSample.retryLater RateSample.noon).
Proof.
  exact (retry_after_is_honoured
           RateSample.exhausted RateSample.retryLater
           RateSample.noon (RateSample.noon + 10 * ratelimit.Second) 0
           eq_refl eq_refl eq_refl eq_refl).
Defined.
